(** * CORE vnode control channel: wire codec, command server, command client

    A shallow embedding of the control plane of the CORE network emulator's
    container daemon (vnoded) and of its command client:

    - [vnode_msg.c], [vnode_msg.h], [vnode_tlv.h]: the TLV wire codec;
    - [vnode_cmd.c]: the CMDREQ / CMDREQACK / CMDSTATUS / CMDSIGNAL messages
      and the server side of command spawning and signalling;
    - [vnode_client.c]: the client side of the command life cycle.

    Conventions of the embedding.
    - C integers are [Z]; the 32-bit fields of the wire format are read and
      written through an explicit little-endian byte codec (the protocol is
      native-endian and intra-host; the daemon runs on little-endian Linux).
    - A message buffer is the list of its bytes, header included, exactly as
      the packed structs lay it out; [msgbufsize] is the allocated length.
    - What the kernel or the allocator decides (the value [sendmsg] returns,
      whether [malloc] succeeds, which pid [fork] returns) is a parameter of
      the function that asks for it.
    - A read or write outside an object is [Undef]; a failed [assert] is
      [Aborted].
    - [size_t] has 64 bits, as on the platforms the daemon is built for:
      offsets and lengths derived from 32-bit fields do not wrap. *)

From Stdlib Require Import ZArith List Lia Bool Permutation.
From Stdlib Require Import Strings.Byte.
From stdpp Require Import base tactics option list gmap.
Import ListNotations.
Local Open Scope Z_scope.

(* [set_solver] and [injection ... as] clear hypotheses that are already
   gone. *)
#[local] Set Warnings "-clear-no-such-hyp".

(** ** Outcomes of a C function *)

Inductive outcome (A : Type) : Type :=
| Done (a : A)
| Aborted
| Undef.
Arguments Done {A} a.
Arguments Aborted {A}.
Arguments Undef {A}.

#[global] Instance outcome_ret : MRet outcome := fun A a => Done a.
#[global] Instance outcome_bind : MBind outcome := fun A B f m =>
  match m with
  | Done a => f a
  | Aborted => Aborted
  | Undef => Undef
  end.

Definition of_option {A} (o : option A) : outcome A :=
  match o with
  | Some a => Done a
  | None => Undef
  end.

(** ** Constants of [vnode_msg.h] *)

Definition VNODE_MSG_NONE : Z := 0.
Definition VNODE_MSG_CMDREQ : Z := 1.
Definition VNODE_MSG_CMDREQACK : Z := 2.
Definition VNODE_MSG_CMDSTATUS : Z := 3.
Definition VNODE_MSG_CMDSIGNAL : Z := 4.
Definition VNODE_MSG_MAX : Z := 5.

Definition VNODE_TLV_NONE : Z := 0.
Definition VNODE_TLV_CMDID : Z := 1.
Definition VNODE_TLV_STDIN : Z := 2.
Definition VNODE_TLV_STDOUT : Z := 3.
Definition VNODE_TLV_STDERR : Z := 4.
Definition VNODE_TLV_CMDARG : Z := 5.
Definition VNODE_TLV_CMDPID : Z := 6.
Definition VNODE_TLV_CMDSTATUS : Z := 7.
Definition VNODE_TLV_SIGNUM : Z := 8.
Definition VNODE_TLV_MAX : Z := 9.

Definition VNODE_ARGMAX : Z := 1024.
Definition VNODE_MSGSIZMAX : Z := 65535.

(** [sizeof(vnode_msghdr_t)] and [sizeof(vnode_tlv_t)]: two packed [uint32_t]. *)
Definition sizeof_hdr : Z := 8.
Definition sizeof_tlv : Z := 8.

(** [errno] value the reader tolerates (Linux). *)
Definition EAGAIN : Z := 11.
Definition SCM_RIGHTS : Z := 1.

(** ** Bytes and 32-bit fields *)

Definition byte_to_Z (b : byte) : Z := Z.of_N (Byte.to_N b).

Definition byte_of_Z (z : Z) : byte :=
  match Byte.of_N (Z.to_N (z mod 256)) with
  | Some b => b
  | None => x00
  end.

Definition le32_decode (b0 b1 b2 b3 : byte) : Z :=
  byte_to_Z b0 + 256 * byte_to_Z b1 + 65536 * byte_to_Z b2
  + 16777216 * byte_to_Z b3.

Definition le32_encode (x : Z) : list byte :=
  [byte_of_Z x; byte_of_Z (x / 256); byte_of_Z (x / 65536);
   byte_of_Z (x / 16777216)].

(** Value of an [int32_t] object whose bytes read as the unsigned [x]. *)
Definition int32_of_u32 (x : Z) : Z :=
  if x <? 2147483648 then x else x - 4294967296.

(** [buf[i]] for a C index; [None] outside the object. *)
Definition zlookup {A} (l : list A) (i : Z) : option A :=
  if (0 <=? i) && (i <? Z.of_nat (length l)) then l !! Z.to_nat i else None.

(** [*(uint32_t * )(buf + off)] *)
Definition load_u32 (buf : list byte) (off : Z) : option Z :=
  if (0 <=? off) && (off + 4 <=? Z.of_nat (length buf)) then
    match drop (Z.to_nat off) buf with
    | b0 :: b1 :: b2 :: b3 :: _ => Some (le32_decode b0 b1 b2 b3)
    | _ => None
    end
  else None.

(** The [n] bytes at [buf + off]; [None] when they do not all lie in [buf]. *)
Definition load_bytes (buf : list byte) (off n : Z) : option (list byte) :=
  if (0 <=? off) && (0 <=? n) && (off + n <=? Z.of_nat (length buf)) then
    Some (take (Z.to_nat n) (drop (Z.to_nat off) buf))
  else None.

(** [memcpy(buf + off, bs, length bs)] *)
Definition store_bytes (buf : list byte) (off : Z) (bs : list byte)
  : option (list byte) :=
  if (0 <=? off) && (off + Z.of_nat (length bs) <=? Z.of_nat (length buf)) then
    Some (take (Z.to_nat off) buf ++ bs
          ++ drop (Z.to_nat off + length bs)%nat buf)
  else None.

Definition store_u32 (buf : list byte) (off : Z) (x : Z) : option (list byte) :=
  store_bytes buf off (le32_encode x).

(** ** Message buffers ([vnode_msgbuf_t]) *)

Record vnode_msgbuf_t : Type := mk_msgbuf {
  msg : list byte;      (* the object [msg] points to; [[]] for NULL *)
  infd : Z;
  outfd : Z;
  errfd : Z
}.

(** [msgbufsize] is written only together with [msg] (by [INIT_MSGBUF] and
    [vnode_resizemsgbuf]): it is the allocated size of [msg]. *)
Definition msgbufsize (mb : vnode_msgbuf_t) : Z := Z.of_nat (length (msg mb)).

Definition set_msg (mb : vnode_msgbuf_t) (m : list byte) : vnode_msgbuf_t :=
  {| msg := m; infd := infd mb; outfd := outfd mb; errfd := errfd mb |}.

Definition set_fds (mb : vnode_msgbuf_t) (i o e : Z) : vnode_msgbuf_t :=
  {| msg := msg mb; infd := i; outfd := o; errfd := e |}.

Definition INIT_MSGBUF : vnode_msgbuf_t :=
  {| msg := []; infd := -1; outfd := -1; errfd := -1 |}.

(** The allocator: for a requested size, failure ([None]) or the contents of
    the bytes that [realloc] adds, which C leaves indeterminate. *)
Definition allocator : Type := Z -> option (nat -> byte).

Definition realloc_buf (old : list byte) (size : Z) (fresh : nat -> byte)
  : list byte :=
  take (Z.to_nat size) old
  ++ map fresh (seq (length old) (Z.to_nat size - length old)).

Definition vnode_resizemsgbuf (heap : allocator) (mb : vnode_msgbuf_t)
    (size : Z) : Z * vnode_msgbuf_t :=
  match heap size with
  | None => (-1, mb)
  | Some fresh => (0, set_msg mb (realloc_buf (msg mb) size fresh))
  end.

Definition vnode_initmsgbuf (heap : allocator) : Z * vnode_msgbuf_t :=
  vnode_resizemsgbuf heap INIT_MSGBUF VNODE_MSGSIZMAX.

Definition hdr_type (m : list byte) : option Z := load_u32 m 0.
Definition hdr_datalen (m : list byte) : option Z := load_u32 m 4.

(** [vnode_msglen(msgbuf)] *)
Definition vnode_msglen (mb : vnode_msgbuf_t) : option Z :=
  dl ← hdr_datalen (msg mb); Some (sizeof_hdr + dl).

(** ** [vnode_addtlv] *)

Definition vnode_addtlv (heap : allocator) (mb : vnode_msgbuf_t) (offset : Z)
    (type vallen : Z) (valp : list byte) : outcome (Z * vnode_msgbuf_t) :=
  let msglen := sizeof_hdr + offset in
  let tlvlen := sizeof_tlv + vallen in
  let '(failed, mb1) :=
    if msglen + tlvlen >? msgbufsize mb
    then vnode_resizemsgbuf heap mb (msgbufsize mb + tlvlen)
    else (0, mb) in
  if negb (failed =? 0) then Done (-1, mb)
  else
    val ← of_option (load_bytes valp 0 vallen);
    m' ← of_option (store_bytes (msg mb1) (sizeof_hdr + offset)
                      (le32_encode type ++ le32_encode vallen ++ val));
    Done (tlvlen, set_msg mb1 m').

(** ** [vnode_parsemsg] *)

(** What a handler sees through its [vnode_tlv_t *]: the two header fields
    and the [vallen] value bytes (fewer when the buffer ends before them). *)
Record vnode_tlv_t : Type := mk_tlv {
  tlv_type : Z;
  tlv_vallen : Z;
  tlv_val : list byte
}.

Section Parse.
(** [D] is the object behind the handlers' [void *data]. *)
Context {D : Type}.

(** A handler returns its [int] and the updated [data]. *)
Definition vnode_tlvhandler_t : Type := vnode_tlv_t -> D -> outcome (Z * D).

(** [const vnode_tlvhandler_t tlvhandler[VNODE_TLV_MAX]]: slot [t] for
    [0 <= t < VNODE_TLV_MAX], [None] for a NULL slot. *)
Definition tlvtable : Type := Z -> option vnode_tlvhandler_t.

(** The [while] loop. Every iteration adds at least [sizeof_tlv] to
    [offset], so [datalen - offset] iterations always suffice; with no
    iteration left the loop condition is false. *)
Fixpoint parse_loop (n : nat) (m : list byte) (tlvhandler : tlvtable)
    (datalen offset tmp : Z) (data : D) : outcome (Z * D) :=
  match n with
  | O => Done (tmp, data)
  | S n' =>
    if offset <? datalen then
      type ← of_option (load_u32 m (sizeof_hdr + offset));
      vallen ← of_option (load_u32 m (sizeof_hdr + offset + 4));
      let offset' := offset + sizeof_tlv + vallen in
      if (vallen =? 0) || (offset' >? datalen) then
        parse_loop n' m tlvhandler datalen offset' tmp data
      else if negb (type <? VNODE_TLV_MAX) then Undef
      else
        match tlvhandler type with
        | None => parse_loop n' m tlvhandler datalen offset' tmp data
        | Some tlvhandlefn =>
          let tlv := {| tlv_type := type; tlv_vallen := vallen;
                        tlv_val := take (Z.to_nat vallen)
                          (drop (Z.to_nat (sizeof_hdr + offset + sizeof_tlv)) m) |} in
          '(r, data') ← tlvhandlefn tlv data;
          if negb (r =? 0) then Done (r, data')
          else parse_loop n' m tlvhandler datalen offset' r data'
        end
    else Done (tmp, data)
  end.

Definition vnode_parsemsg (m : list byte) (data : D) (tlvhandler : tlvtable)
  : outcome (Z * D) :=
  datalen ← of_option (hdr_datalen m);
  parse_loop (Z.to_nat datalen) m tlvhandler datalen 0 (-1) data.
End Parse.
Arguments vnode_tlvhandler_t D : clear implicits.
Arguments tlvtable D : clear implicits.

(** ** [vnode_tlv.h] *)

(** [tlv_string]: the returned pointer is the value itself. *)
Definition tlv_string (tlv : vnode_tlv_t) : outcome (Z * option (list byte)) :=
  b ← of_option (zlookup (tlv_val tlv) ((tlv_vallen tlv - 1) mod 4294967296));
  if Byte.eqb b x00 then Done (0, Some (tlv_val tlv)) else Done (-1, None).

(** [tlv_int32]: [None] when [*var] is left as it was. *)
Definition tlv_int32 (tlv : vnode_tlv_t) : outcome (Z * option Z) :=
  if negb (tlv_vallen tlv =? 4) then Done (-1, None)
  else
    x ← of_option (load_u32 (tlv_val tlv) 0);
    Done (0, Some (int32_of_u32 x)).

(** ** [vnode_sendmsg] and [vnode_recvmsg] *)

(** What [sendmsg] is handed: the bytes of the single iovec and, when a
    control message is attached, the three ints of its [SCM_RIGHTS] data. *)
Record datagram : Type := mk_dgram {
  dg_bytes : list byte;
  dg_rights : option (Z * Z * Z)
}.

(** The kernel's answer to [sendmsg(fd, &msg, 0)]. *)
Definition sendmsg_t : Type := Z -> datagram -> Z.

Definition vnode_sendmsg (sendmsg : sendmsg_t) (fd : Z) (mb : vnode_msgbuf_t)
  : outcome (Z * datagram) :=
  iov_len ← of_option (vnode_msglen mb);
  rights ←
    (if 0 <=? infd mb then
       if negb (0 <=? outfd mb) then Aborted
       else if negb (0 <=? errfd mb) then Aborted
       else Done (Some (infd mb, outfd mb, errfd mb))
     else Done None);
  iov ← of_option (load_bytes (msg mb) 0 iov_len);
  let dg := {| dg_bytes := iov; dg_rights := rights |} in
  Done (sendmsg fd dg, dg).

(** The kernel's answer to [recvmsg]: -1 with an [errno], or the bytes of one
    datagram (none at end of file) with the first control message, if any:
    its [cmsg_type] and the three ints found at [CMSG_DATA]. *)
Inductive recv_result : Type :=
| RecvError (errno : Z)
| RecvData (bytes : list byte) (cmsg : option (Z * (Z * Z * Z))).

Definition vnode_recvmsg (heap : allocator) (recvmsg : recv_result)
    (mb : vnode_msgbuf_t) : outcome (Z * vnode_msgbuf_t) :=
  let '(failed, mb1) :=
    if msgbufsize mb <? VNODE_MSGSIZMAX
    then vnode_resizemsgbuf heap mb VNODE_MSGSIZMAX
    else (0, mb) in
  if negb (failed =? 0) then Done (-1, mb)
  else
    let mb2 := set_fds mb1 (-1) (-1) (-1) in
    match recvmsg with
    | RecvError errno =>
      if errno =? EAGAIN then Done (0, mb2) else Done (-1, mb2)
    | RecvData bytes cmsg =>
      (* at most [iov_len = msgbufsize] bytes are stored *)
      let got := take (length (msg mb2)) bytes in
      let recvlen := Z.of_nat (length got) in
      if recvlen =? 0 then Done (-1, mb2)
      else
        let mb3 := set_msg mb2 (got ++ drop (length got) (msg mb2)) in
        let mb4 :=
          match cmsg with
          | Some (cmsg_type, (fd0, fd1, fd2)) =>
            if cmsg_type =? SCM_RIGHTS then set_fds mb3 fd0 fd1 fd2 else mb3
          | None => mb3
          end in
        if recvlen <? sizeof_hdr then Done (0, mb4)
        else
          type ← of_option (hdr_type (msg mb4));
          datalen ← of_option (hdr_datalen (msg mb4));
          if (type =? VNODE_MSG_NONE) || (type >=? VNODE_MSG_MAX)
          then Done (0, mb4)
          else if negb (recvlen - sizeof_hdr =? datalen) then Done (0, mb4)
          else Done (recvlen, mb4)
    end.

(** ** Sending the four messages ([vnode_cmd.c]) *)

(** The [ADDTLV] macro, once per element of [tlvs] = (type, length, value
    pointer): [None] stands for its [FREE_MSGBUF; return -1]. *)
Fixpoint ADDTLV (heap : allocator) (mb : vnode_msgbuf_t) (offset : Z)
    (tlvs : list (Z * Z * list byte)) : outcome (option (vnode_msgbuf_t * Z)) :=
  match tlvs with
  | [] => Done (Some (mb, offset))
  | (t, l, vp) :: rest =>
    '(tlvlen, mb') ← vnode_addtlv heap mb offset t l vp;
    if tlvlen <? 0 then Done None
    else ADDTLV heap mb' (offset + tlvlen) rest
  end.

(** The four senders, [vnode_send_cmdreq], [vnode_send_cmdreqack],
    [vnode_send_cmdstatus] and [vnode_send_cmdsignal], repeat one body and
    differ in the TLVs, in the header type and in the descriptors stored in
    the buffer ([None]: left as [vnode_initmsgbuf] set them).

    [build_msg] is that body up to the call of [vnode_sendmsg]: the buffer
    with its TLVs, descriptors and header, [None] where the body returns -1
    before sending. *)
Definition build_msg (heap : allocator) (type : Z)
    (tlvs : list (Z * Z * list byte)) (fds : option (Z * Z * Z))
  : outcome (option vnode_msgbuf_t) :=
  let '(failed, mb) := vnode_initmsgbuf heap in
  if negb (failed =? 0) then Done None
  else
    added ← ADDTLV heap mb 0 tlvs;
    match added with
    | None => Done None
    | Some (mb, offset) =>
      let mb := match fds with
                | Some (i, o, e) => set_fds mb i o e
                | None => mb
                end in
      m1 ← of_option (store_u32 (msg mb) 0 type);
      m2 ← of_option (store_u32 m1 4 offset);
      Done (Some (set_msg mb m2))
    end.

(** The whole body: the function's [int] and the datagrams handed to
    [sendmsg]. *)
Definition send_msg (heap : allocator) (sendmsg : sendmsg_t) (fd : Z)
    (type : Z) (tlvs : list (Z * Z * list byte)) (fds : option (Z * Z * Z))
  : outcome (Z * list (Z * datagram)) :=
  built ← build_msg heap type tlvs fds;
  match built with
  | None => Done (-1, [])
  | Some mb =>
    '(sent, dg) ← vnode_sendmsg sendmsg fd mb;
    msglen ← of_option (vnode_msglen mb);
    Done (if sent =? msglen then 0 else -1, [(fd, dg)])
  end.

(** [&x, sizeof(x)] for an [int32_t x]. *)
Definition int32_tlv (type : Z) (x : Z) : Z * Z * list byte :=
  (type, 4, le32_encode x).

(** A [char *]: the bytes before the terminating NUL. *)
Definition cstring : Type := list byte.

Fixpoint strlen (s : cstring) : nat :=
  match s with
  | [] => O
  | b :: s' => if Byte.eqb b x00 then O else S (strlen s')
  end.

(** [*cmdarg, strlen( *cmdarg) + 1] *)
Definition cmdarg_tlv (s : cstring) : Z * Z * list byte :=
  (VNODE_TLV_CMDARG, Z.of_nat (strlen s) + 1, take (strlen s) s ++ [x00]).

(** [for (cmdarg = argv; *cmdarg; cmdarg++)]: the strings before the first
    NULL of the array; [None] when the array holds no NULL. *)
Fixpoint argv_strings (argv : list (option cstring)) : option (list cstring) :=
  match argv with
  | [] => None
  | None :: _ => Some []
  | Some s :: rest => l ← argv_strings rest; Some (s :: l)
  end.

Definition vnode_send_cmdreq (heap : allocator) (sendmsg : sendmsg_t) (fd : Z)
    (cmdid : Z) (argv : list (option cstring)) (infd outfd errfd : Z)
  : outcome (Z * list (Z * datagram)) :=
  if negb ((vnode_initmsgbuf heap).1 =? 0) then Done (-1, [])
  else
    args ← of_option (argv_strings argv);
    send_msg heap sendmsg fd VNODE_MSG_CMDREQ
      (int32_tlv VNODE_TLV_CMDID cmdid :: map cmdarg_tlv args)
      (Some (infd, outfd, errfd)).

Definition vnode_send_cmdreqack (heap : allocator) (sendmsg : sendmsg_t)
    (fd : Z) (cmdid pid : Z) : outcome (Z * list (Z * datagram)) :=
  send_msg heap sendmsg fd VNODE_MSG_CMDREQACK
    [int32_tlv VNODE_TLV_CMDID cmdid; int32_tlv VNODE_TLV_CMDPID pid] None.

Definition vnode_send_cmdstatus (heap : allocator) (sendmsg : sendmsg_t)
    (fd : Z) (cmdid status : Z) : outcome (Z * list (Z * datagram)) :=
  send_msg heap sendmsg fd VNODE_MSG_CMDSTATUS
    [int32_tlv VNODE_TLV_CMDID cmdid; int32_tlv VNODE_TLV_CMDSTATUS status] None.

Definition vnode_send_cmdsignal (heap : allocator) (sendmsg : sendmsg_t)
    (fd : Z) (cmdid signum : Z) : outcome (Z * list (Z * datagram)) :=
  send_msg heap sendmsg fd VNODE_MSG_CMDSIGNAL
    [int32_tlv VNODE_TLV_CMDID cmdid; int32_tlv VNODE_TLV_SIGNUM signum] None.

(** ** Command entries ([vnode_cmd.h]) *)

(** [D] is what [void *data] points to: the owning client on the server, the
    completion callback and its argument on the client. *)
Record vnode_cmdentry_t (D : Type) : Type := mk_cmdentry {
  cmdid : Z;
  pid : Z;
  status : Z;
  data : D
}.
Arguments mk_cmdentry {D}.
Arguments cmdid {D}.
Arguments pid {D}.
Arguments status {D}.
Arguments data {D}.

Definition set_pid {D} (cmd : vnode_cmdentry_t D) (p : Z) : vnode_cmdentry_t D :=
  {| cmdid := cmdid cmd; pid := p; status := status cmd; data := data cmd |}.

Definition set_status {D} (cmd : vnode_cmdentry_t D) (s : Z)
  : vnode_cmdentry_t D :=
  {| cmdid := cmdid cmd; pid := pid cmd; status := s; data := data cmd |}.

(** [TAILQ_FOREACH(cmd, head, entries) if (P cmd) break;]: the first entry
    satisfying [P] and its position, [None] when the loop ends with
    [cmd == NULL]. *)
Fixpoint tailq_find {A} (P : A -> bool) (l : list A) : option (nat * A) :=
  match l with
  | [] => None
  | x :: l' =>
    if P x then Some (O, x)
    else match tailq_find P l' with
         | Some (i, y) => Some (S i, y)
         | None => None
         end
  end.

(** ** The server side of commands ([vnode_cmd.c], [vnode_server.h]) *)

Module Server.

(** [vnode_cmdreq_t]; [cmdarg] is the array of [VNODE_ARGMAX] pointers,
    [None] for NULL. *)
Record vnode_cmdreq_t : Type := mk_cmdreq {
  req_cmdid : Z;
  cmdio : Z * Z * Z;
  cmdarg : list (option (list byte))
}.

Definition CMDREQ_INIT : vnode_cmdreq_t :=
  {| req_cmdid := 0; cmdio := (0, 0, 0);
     cmdarg := replicate (Z.to_nat VNODE_ARGMAX) None |}.

Record vnode_cmdsignal_t : Type := mk_cmdsignal {
  sig_cmdid : Z;
  signum : Z
}.

Definition CMDSIGNAL_INIT : vnode_cmdsignal_t :=
  {| sig_cmdid := 0; signum := 0 |}.

(** A connected client: the identity of its [vnode_cliententry_t] (what
    the pointers to it compare by) and its connection. *)
Record vnode_cliententry_t : Type := mk_cliententry {
  client_ref : Z;
  clientfd : Z
}.

(** [vnode_server_t], the part the command functions use; the [data] of
    an entry is the owning client. *)
Record vnode_server_t : Type := mk_server {
  cmdlisthead : list (vnode_cmdentry_t Z)
}.

(** The system calls the server makes, in order. [SysFork req pid]:
    [fork] returned [pid] to the server (-1: no child); the child, if any,
    goes on as [forkexec_child req]. *)
Inductive sys_event : Type :=
| SysFork (req : vnode_cmdreq_t) (pid : Z)
| SysClose (fd : Z)
| SysKill (pid sig : Z)
| SysSend (fd : Z) (dg : datagram).

Definition tlv_cmdreq_cmdid : vnode_tlvhandler_t vnode_cmdreq_t :=
  fun tlv cmdreq =>
  if negb (tlv_type tlv =? VNODE_TLV_CMDID) then Aborted
  else
    '(tmp, v) ← tlv_int32 tlv;
    Done (tmp, match v with
               | Some x => {| req_cmdid := x; cmdio := cmdio cmdreq;
                              cmdarg := cmdarg cmdreq |}
               | None => cmdreq
               end).

(** [for (i = 0; i < CMDARGMAX; i++) if (cmdreq->cmdarg[i] == NULL) break;] *)
Fixpoint first_null {A} (arr : list (option A)) : nat :=
  match arr with
  | [] => O
  | None :: _ => O
  | Some _ :: arr' => S (first_null arr')
  end.

Definition tlv_cmdreq_cmdarg : vnode_tlvhandler_t vnode_cmdreq_t :=
  fun tlv cmdreq =>
  if negb (tlv_type tlv =? VNODE_TLV_CMDARG) then Aborted
  else
    let i := first_null (cmdarg cmdreq) in
    if Z.of_nat i =? VNODE_ARGMAX then Done (-1, cmdreq)
    else
      '(tmp, v) ← tlv_string tlv;
      Done (tmp, match v with
                 | Some s => {| req_cmdid := req_cmdid cmdreq;
                                cmdio := cmdio cmdreq;
                                cmdarg := <[i := Some s]> (cmdarg cmdreq) |}
                 | None => cmdreq
                 end).

Definition cmdreq_tlvhandler : tlvtable vnode_cmdreq_t := fun t =>
  if t =? VNODE_TLV_CMDID then Some tlv_cmdreq_cmdid
  else if t =? VNODE_TLV_CMDARG then Some tlv_cmdreq_cmdarg
  else None.

(** What the child does after [fork] returned 0 in [forkexec], once the
    descriptors are in place: it calls [execvp] (and exits with 1 should the
    call return). [ChildUndef]: the call is outside the contract of
    [execvp]. *)
Inductive child_action : Type :=
| ChildExecvp (file : list byte) (argv : list (list byte))
| ChildUndef.

(** [execvp(cmdreq->cmdarg[0], cmdreq->cmdarg)]: the file must not be NULL
    ([execvp] reads it), and the argument vector runs to the first NULL,
    which the array must hold. *)
Definition forkexec_child (cmdreq : vnode_cmdreq_t) : child_action :=
  match cmdarg cmdreq with
  | Some file :: _ =>
    match argv_strings (cmdarg cmdreq) with
    | Some argv => ChildExecvp file argv
    | None => ChildUndef
    end
  | _ => ChildUndef
  end.

(** [CLOSE(fd)] of [forkexec] *)
Definition CLOSE (fd : Z) : list sys_event :=
  if 0 <=? fd then [SysClose fd] else [].

(** [forkexec] as the server runs it ([fork_ret] is what [fork] returns
    there). *)
Definition forkexec (fork_ret : Z) (cmdreq : vnode_cmdreq_t)
  : Z * list sys_event :=
  let '(i, o, e) := cmdio cmdreq in
  (fork_ret, SysFork cmdreq fork_ret :: CLOSE i ++ CLOSE o ++ CLOSE e).

(** The environment of one request: the allocator of message buffers,
    whether [malloc] of the entry succeeds, [fork]'s result, [sendmsg]. *)
Record env : Type := mk_env {
  heap : allocator;
  malloc_cmd : bool;
  fork_ret : Z;
  sendmsg : sendmsg_t
}.

Definition sends (l : list (Z * datagram)) : list sys_event :=
  map (fun '(fd, dg) => SysSend fd dg) l.

Definition vnode_process_cmdreq (e : env) (server : vnode_server_t)
    (client : vnode_cliententry_t) (cmdreq : vnode_cmdreq_t)
  : outcome (vnode_server_t * list sys_event) :=
  if negb (malloc_cmd e) then Done (server, [])
  else
    let '(child, evs) := forkexec (fork_ret e) cmdreq in
    let cmd := {| cmdid := req_cmdid cmdreq; pid := child; status := -1;
                  data := client_ref client |} in
    '(failed, sent) ← vnode_send_cmdreqack (heap e) (sendmsg e)
                        (clientfd client) (cmdid cmd) (pid cmd);
    if negb (failed =? 0) then Done (server, evs ++ sends sent)
    else if pid cmd =? -1 then Done (server, evs ++ sends sent)
    else Done ({| cmdlisthead := cmdlisthead server ++ [cmd] |},
               evs ++ sends sent).

(** [vnode_recv_cmdreq]; [mb] is [msgio->msgbuf] as [vnode_recvmsg] left
    it. *)
Definition vnode_recv_cmdreq (e : env) (server : vnode_server_t)
    (client : vnode_cliententry_t) (mb : vnode_msgbuf_t)
  : outcome (vnode_server_t * list sys_event) :=
  type ← of_option (hdr_type (msg mb));
  if negb (type =? VNODE_MSG_CMDREQ) then Aborted
  else
    '(tmp, cmdreq) ← vnode_parsemsg (msg mb) CMDREQ_INIT cmdreq_tlvhandler;
    if negb (tmp =? 0) then Done (server, [])
    else
      let cmdreq := {| req_cmdid := req_cmdid cmdreq;
                       cmdio := (infd mb, outfd mb, errfd mb);
                       cmdarg := cmdarg cmdreq |} in
      vnode_process_cmdreq e server client cmdreq.

Definition tlv_cmdsignal_cmdid : vnode_tlvhandler_t vnode_cmdsignal_t :=
  fun tlv cmdsignal =>
  if negb (tlv_type tlv =? VNODE_TLV_CMDID) then Aborted
  else
    '(tmp, v) ← tlv_int32 tlv;
    Done (tmp, match v with
               | Some x => {| sig_cmdid := x; signum := signum cmdsignal |}
               | None => cmdsignal
               end).

Definition tlv_cmdsignal_signum : vnode_tlvhandler_t vnode_cmdsignal_t :=
  fun tlv cmdsignal =>
  if negb (tlv_type tlv =? VNODE_TLV_SIGNUM) then Aborted
  else
    '(tmp, v) ← tlv_int32 tlv;
    Done (tmp, match v with
               | Some x => {| sig_cmdid := sig_cmdid cmdsignal; signum := x |}
               | None => cmdsignal
               end).

Definition cmdsignal_tlvhandler : tlvtable vnode_cmdsignal_t := fun t =>
  if t =? VNODE_TLV_CMDID then Some tlv_cmdsignal_cmdid
  else if t =? VNODE_TLV_SIGNUM then Some tlv_cmdsignal_signum
  else None.

(** The test of the [TAILQ_FOREACH] in [vnode_recv_cmdsignal]. *)
Definition signal_target (client : vnode_cliententry_t)
    (cmdsignal : vnode_cmdsignal_t) (cmd : vnode_cmdentry_t Z) : bool :=
  (cmdid cmd =? sig_cmdid cmdsignal) && (data cmd =? client_ref client).

Definition vnode_recv_cmdsignal (server : vnode_server_t)
    (client : vnode_cliententry_t) (mb : vnode_msgbuf_t)
  : outcome (vnode_server_t * list sys_event) :=
  type ← of_option (hdr_type (msg mb));
  if negb (type =? VNODE_MSG_CMDSIGNAL) then Aborted
  else
    '(tmp, cmdsignal) ← vnode_parsemsg (msg mb) CMDSIGNAL_INIT
                          cmdsignal_tlvhandler;
    if negb (tmp =? 0) then Done (server, [])
    else
      match tailq_find (signal_target client cmdsignal)
              (cmdlisthead server) with
      | Some (_, cmd) =>
        Done (server, [SysKill (pid cmd) (signum cmdsignal)])
      | None => Done (server, [])
      end.

End Server.

(** ** The command client ([vnode_client.c], [vnode_client.h]) *)

Module Client.

(** [vnode_clientcmd_t]: the completion callback ([None] for NULL) and the
    caller's opaque argument. *)
Record vnode_clientcmd_t : Type := mk_clientcmd {
  cmddonecb : option Z;
  cb_data : Z
}.

Record vnode_cmdreqack_t : Type := mk_cmdreqack {
  ack_cmdid : Z;
  ack_pid : Z
}.

Definition CMDREQACK_INIT : vnode_cmdreqack_t :=
  {| ack_cmdid := 0; ack_pid := -1 |}.

Record vnode_cmdstatus_t : Type := mk_cmdstatus {
  st_cmdid : Z;
  st_status : Z
}.

Definition CMDSTATUS_INIT : vnode_cmdstatus_t :=
  {| st_cmdid := 0; st_status := -1 |}.

(** [vnode_client_t]: the in-flight commands, the connection, the message
    buffer of its reader and the [cmdid] counter. *)
Record vnode_client_t : Type := mk_client {
  cmdlisthead : list (vnode_cmdentry_t vnode_clientcmd_t);
  serverfd : Z;
  msgbuf : vnode_msgbuf_t;
  next_cmdid : Z      (* the field [cmdid] *)
}.

Definition set_cmdlist (client : vnode_client_t)
    (l : list (vnode_cmdentry_t vnode_clientcmd_t)) : vnode_client_t :=
  {| cmdlisthead := l; serverfd := serverfd client;
     msgbuf := msgbuf client; next_cmdid := next_cmdid client |}.

(** [vnode_client_cmdio_t]: [iotype] and the member of the union it
    selects. *)
Inductive vnode_client_cmdio_t : Type :=
| VCMD_IO_NONE
| VCMD_IO_FD (stdiofd_infd stdiofd_outfd stdiofd_errfd : Z)
| VCMD_IO_PIPE (infd0 infd1 outfd0 outfd1 errfd0 errfd1 : Z)
| VCMD_IO_PTY (masterfd slavefd : Z)
| VCMD_IO_OTHER (iotype : Z).

(** One call of a completion callback:
    [cmddonecb(cmdid, pid, status, data)]. *)
Record cmddone_call : Type := mk_call {
  call_cb : Z;
  call_cmdid : Z;
  call_pid : Z;
  call_status : Z;
  call_data : Z
}.

Definition vnode_client_cmddone (cmd : vnode_cmdentry_t vnode_clientcmd_t)
  : list cmddone_call :=
  match cmddonecb (data cmd) with
  | Some cb => [mk_call cb (cmdid cmd) (pid cmd) (status cmd)
                  (cb_data (data cmd))]
  | None => []
  end.

Definition tlv_cmdreqack_cmdid : vnode_tlvhandler_t vnode_cmdreqack_t :=
  fun tlv cmdreqack =>
  if negb (tlv_type tlv =? VNODE_TLV_CMDID) then Aborted
  else
    '(tmp, v) ← tlv_int32 tlv;
    Done (tmp, match v with
               | Some x => {| ack_cmdid := x; ack_pid := ack_pid cmdreqack |}
               | None => cmdreqack
               end).

Definition tlv_cmdreqack_cmdpid : vnode_tlvhandler_t vnode_cmdreqack_t :=
  fun tlv cmdreqack =>
  if negb (tlv_type tlv =? VNODE_TLV_CMDPID) then Aborted
  else
    '(tmp, v) ← tlv_int32 tlv;
    Done (tmp, match v with
               | Some x => {| ack_cmdid := ack_cmdid cmdreqack; ack_pid := x |}
               | None => cmdreqack
               end).

Definition cmdreqack_tlvhandler : tlvtable vnode_cmdreqack_t := fun t =>
  if t =? VNODE_TLV_CMDID then Some tlv_cmdreqack_cmdid
  else if t =? VNODE_TLV_CMDPID then Some tlv_cmdreqack_cmdpid
  else None.

Definition vnode_clientrecv_cmdreqack (client : vnode_client_t)
  : outcome (vnode_client_t * list cmddone_call) :=
  let m := msg (msgbuf client) in
  type ← of_option (hdr_type m);
  if negb (type =? VNODE_MSG_CMDREQACK) then Aborted
  else
    '(tmp, cmdreqack) ← vnode_parsemsg m CMDREQACK_INIT cmdreqack_tlvhandler;
    if negb (tmp =? 0) then Done (client, [])
    else
      match tailq_find (fun cmd => cmdid cmd =? ack_cmdid cmdreqack)
              (cmdlisthead client) with
      | None => Done (client, [])
      | Some (i, cmd) =>
        let cmd := set_pid cmd (ack_pid cmdreqack) in
        if ack_pid cmdreqack =? -1 then
          Done (set_cmdlist client (delete i (cmdlisthead client)),
                vnode_client_cmddone (set_status cmd (-1)))
        else
          Done (set_cmdlist client (<[i := cmd]> (cmdlisthead client)), [])
      end.

Definition tlv_cmdstatus_cmdid : vnode_tlvhandler_t vnode_cmdstatus_t :=
  fun tlv cmdstatus =>
  if negb (tlv_type tlv =? VNODE_TLV_CMDID) then Aborted
  else
    '(tmp, v) ← tlv_int32 tlv;
    Done (tmp, match v with
               | Some x => {| st_cmdid := x; st_status := st_status cmdstatus |}
               | None => cmdstatus
               end).

Definition tlv_cmdstatus_status : vnode_tlvhandler_t vnode_cmdstatus_t :=
  fun tlv cmdstatus =>
  if negb (tlv_type tlv =? VNODE_TLV_CMDSTATUS) then Aborted
  else
    '(tmp, v) ← tlv_int32 tlv;
    Done (tmp, match v with
               | Some x => {| st_cmdid := st_cmdid cmdstatus; st_status := x |}
               | None => cmdstatus
               end).

Definition cmdstatus_tlvhandler : tlvtable vnode_cmdstatus_t := fun t =>
  if t =? VNODE_TLV_CMDID then Some tlv_cmdstatus_cmdid
  else if t =? VNODE_TLV_CMDSTATUS then Some tlv_cmdstatus_status
  else None.

Definition vnode_clientrecv_cmdstatus (client : vnode_client_t)
  : outcome (vnode_client_t * list cmddone_call) :=
  let m := msg (msgbuf client) in
  type ← of_option (hdr_type m);
  if negb (type =? VNODE_MSG_CMDSTATUS) then Aborted
  else
    '(tmp, cmdstatus) ← vnode_parsemsg m CMDSTATUS_INIT cmdstatus_tlvhandler;
    if negb (tmp =? 0) then Done (client, [])
    else
      match tailq_find (fun cmd => cmdid cmd =? st_cmdid cmdstatus)
              (cmdlisthead client) with
      | None => Done (client, [])
      | Some (i, cmd) =>
        Done (set_cmdlist client (delete i (cmdlisthead client)),
              vnode_client_cmddone (set_status cmd (st_status cmdstatus)))
      end.

(** The descriptors open in the client process. *)
Definition fdtable : Type := gset Z.

Definition close (fd : Z) (open : fdtable) : fdtable := open ∖ {[fd]}.

(** The [while (!TAILQ_EMPTY(...))] loop of [vnode_delclient]: the list
    it leaves and the callbacks it makes. *)
Fixpoint delclient_loop (l : list (vnode_cmdentry_t vnode_clientcmd_t))
  : list (vnode_cmdentry_t vnode_clientcmd_t) * list cmddone_call :=
  match l with
  | [] => ([], [])
  | cmd :: rest =>
    let calls := vnode_client_cmddone (set_status cmd (-1)) in
    let '(l', calls') := delclient_loop rest in
    (l', calls ++ calls')
  end.

(** [vnode_delclient], up to the final [memset] and [free] of the handle:
    the handle as they find it, the open descriptors, the callbacks. *)
Definition vnode_delclient (client : vnode_client_t) (open : fdtable)
  : vnode_client_t * fdtable * list cmddone_call :=
  let '(fd, open) :=
    if 0 <=? serverfd client then (-1, close (serverfd client) open)
    else (serverfd client, open) in
  let '(l, calls) := delclient_loop (cmdlisthead client) in
  ({| cmdlisthead := l; serverfd := fd;
      msgbuf := INIT_MSGBUF;            (* [vnode_msgiostop]: FREE_MSGBUF *)
      next_cmdid := next_cmdid client |}, open, calls).

Definition vnode_setcmdio (clientcmdio : vnode_client_cmdio_t)
  : option (Z * Z * Z) :=
  match clientcmdio with
  | VCMD_IO_NONE => Some (-1, -1, -1)
  | VCMD_IO_FD i o e => Some (i, o, e)
  | VCMD_IO_PIPE infd0 _ _ outfd1 _ errfd1 => Some (infd0, outfd1, errfd1)
  | VCMD_IO_PTY _ slavefd => Some (slavefd, slavefd, slavefd)
  | VCMD_IO_OTHER _ => None
  end.

(** The [CLOSE(var)] macro of [vnode_cleanupcmdio]; the variable becomes
    -1. *)
Definition CLOSE (var : Z) (open : fdtable) : fdtable :=
  if 0 <=? var then close var open else open.

Definition vnode_cleanupcmdio (clientcmdio : vnode_client_cmdio_t)
    (open : fdtable) : vnode_client_cmdio_t * fdtable :=
  match clientcmdio with
  | VCMD_IO_NONE | VCMD_IO_FD _ _ _ => (clientcmdio, open)
  | VCMD_IO_PIPE infd0 infd1 outfd0 outfd1 errfd0 errfd1 =>
    (VCMD_IO_PIPE (-1) infd1 outfd0 (-1) errfd0 (-1),
     CLOSE errfd1 (CLOSE outfd1 (CLOSE infd0 open)))
  | VCMD_IO_PTY masterfd slavefd =>
    (VCMD_IO_PTY masterfd (-1), CLOSE slavefd open)
  | VCMD_IO_OTHER _ => (clientcmdio, open)
  end.

(** The environment of one [vnode_client_cmdreq]: the allocator of the
    message buffer, whether the two [malloc]s succeed, [sendmsg]. *)
Record env : Type := mk_env {
  heap : allocator;
  malloc_clientcmd : bool;
  malloc_cmd : bool;
  sendmsg : sendmsg_t
}.

(** [client->cmdid++] on an [int32_t]. *)
Definition int32_incr (x : Z) : Z := int32_of_u32 ((x + 1) mod 4294967296).

(** The state a call works on and leaves. *)
Record state : Type := mk_state {
  st_client : vnode_client_t;
  st_cmdio : vnode_client_cmdio_t;
  st_open : fdtable
}.

(** [vnode_client_cmdreq]: the returned [int], the state left, and the
    datagrams handed to [sendmsg]. *)
Definition vnode_client_cmdreq (e : env) (s : state)
    (cmddonecb : option Z) (data : Z) (argc : Z)
    (argv : list (option cstring))
  : outcome (Z * state * list (Z * datagram)) :=
  let client := st_client s in
  if argc >=? VNODE_ARGMAX then Done (-1, s, [])
  else
    last ← of_option (zlookup argv argc);
    match last, vnode_setcmdio (st_cmdio s) with
    | Some _, _ => Done (-1, s, [])
    | None, None => Done (-1, s, [])
    | None, Some (cmdin, cmdout, cmderr) =>
      if negb (malloc_clientcmd e) then Done (-1, s, [])
      else if negb (malloc_cmd e) then Done (-1, s, [])
      else
        let id := if next_cmdid client <? 0 then 0 else next_cmdid client in
        let cmd := {| cmdid := id; pid := -1; status := -1;
                      data := {| cmddonecb := cmddonecb;
                                 cb_data := data |} |} in
        let i := length (cmdlisthead client) in
        let client1 :=
          {| cmdlisthead := cmdlisthead client ++ [cmd];
             serverfd := serverfd client; msgbuf := msgbuf client;
             next_cmdid := int32_incr id |} in
        '(failed, sent) ← vnode_send_cmdreq (heap e) (sendmsg e)
                            (serverfd client) id argv cmdin cmdout cmderr;
        if negb (failed =? 0) then
          Done (-1,
                {| st_client :=
                     set_cmdlist client1 (delete i (cmdlisthead client1));
                   st_cmdio := st_cmdio s; st_open := st_open s |}, sent)
        else
          let '(cmdio', open') :=
            vnode_cleanupcmdio (st_cmdio s) (st_open s) in
          Done (id, {| st_client := client1; st_cmdio := cmdio';
                       st_open := open' |}, sent)
    end.

(** [vnode_client], once [vnode_connect] has returned [fd]: [None] when
    an allocation fails. *)
Definition vnode_client (calloc_ok : bool) (heap : allocator) (fd : Z)
  : option vnode_client_t :=
  if negb calloc_ok then None
  else
    let '(failed, mb) := vnode_initmsgbuf heap in
    if negb (failed =? 0) then None
    else Some {| cmdlisthead := []; serverfd := fd; msgbuf := mb;
                 next_cmdid := 0 |}.

(** [vnode_msg_cb] for the client's reader, whose handler table holds
    [vnode_clientrecv_cmdreqack] and [vnode_clientrecv_cmdstatus]. On a
    negative result the reader is stopped and the caller's I/O-error
    callback runs; what that callback does is the caller's. *)
Definition vnode_msg_cb (heap : allocator) (recvmsg : recv_result)
    (client : vnode_client_t)
  : outcome (vnode_client_t * list cmddone_call) :=
  '(tmp, mb) ← vnode_recvmsg heap recvmsg (msgbuf client);
  let client := {| cmdlisthead := cmdlisthead client;
                   serverfd := serverfd client; msgbuf := mb;
                   next_cmdid := next_cmdid client |} in
  if tmp =? 0 then Done (client, [])
  else if tmp <? 0 then Done (client, [])
  else
    type ← of_option (hdr_type (msg mb));
    if type =? VNODE_MSG_CMDREQACK then vnode_clientrecv_cmdreqack client
    else if type =? VNODE_MSG_CMDSTATUS then vnode_clientrecv_cmdstatus client
    else Done (client, []).

(** *** The life of a client handle

    What an embedding event loop does with a handle between [vnode_client]
    and [vnode_delclient]: it submits commands, each with an I/O
    arrangement of its own, and lets the reader run when the connection is
    readable. *)
Inductive step : Type :=
| Submit (e : env) (clientcmdio : vnode_client_cmdio_t)
    (cmddonecb : option Z) (data : Z) (argc : Z)
    (argv : list (option cstring))
| Readable (heap : allocator) (recvmsg : recv_result).

(** A request that [vnode_client_cmdreq] accepted: the [cmdid] it
    returned, the callback and the opaque argument given. *)
Record accepted : Type := mk_accepted {
  acc_cmdid : Z;
  acc_cb : option Z;
  acc_data : Z
}.

(** What a run leaves: the handle, the open descriptors, the completion
    callbacks made and the requests accepted, both in order. *)
Record history : Type := mk_history {
  h_client : vnode_client_t;
  h_open : fdtable;
  h_calls : list cmddone_call;
  h_accepted : list accepted
}.

Definition do_step (h : history) (st : step) : outcome history :=
  match st with
  | Submit e clientcmdio cb data argc argv =>
    '(ret, s, _) ← vnode_client_cmdreq e
                     {| st_client := h_client h; st_cmdio := clientcmdio;
                        st_open := h_open h |} cb data argc argv;
    Done {| h_client := st_client s; h_open := st_open s;
            h_calls := h_calls h;
            h_accepted :=
              if ret <? 0 then h_accepted h
              else h_accepted h ++ [mk_accepted ret cb data] |}
  | Readable heap recvmsg =>
    '(client, calls) ← vnode_msg_cb heap recvmsg (h_client h);
    Done {| h_client := client; h_open := h_open h;
            h_calls := h_calls h ++ calls; h_accepted := h_accepted h |}
  end.

Fixpoint run (h : history) (steps : list step) : outcome history :=
  match steps with
  | [] => Done h
  | st :: rest => h' ← do_step h st; run h' rest
  end.

(** The run ends with [vnode_delclient]. *)
Definition finish (h : history) : history :=
  let '(client, open, calls) := vnode_delclient (h_client h) (h_open h) in
  {| h_client := client; h_open := open; h_calls := h_calls h ++ calls;
     h_accepted := h_accepted h |}.

(** The identity of a completion: which callback, for which [cmdid], with
    which opaque argument. *)
Definition call_key (c : cmddone_call) : Z * Z * Z :=
  (call_cb c, call_cmdid c, call_data c).

Definition accepted_key (a : accepted) : option (Z * Z * Z) :=
  cb ← acc_cb a; Some (cb, acc_cmdid a, acc_data a).

Definition entry_key (cmd : vnode_cmdentry_t vnode_clientcmd_t)
  : option (Z * Z * Z) :=
  cb ← cmddonecb (data cmd); Some (cb, cmdid cmd, cb_data (data cmd)).

End Client.

(** ** Notions used to state the properties *)

(** The bytes of a TLV on the wire. *)
Definition tlv_bytes (t : vnode_tlv_t) : list byte :=
  le32_encode (tlv_type t) ++ le32_encode (tlv_vallen t) ++ tlv_val t.

(** A TLV of the protocol: a type of [vnode_tlvtype_t], a value that is not
    empty, and [vallen] its length. *)
Definition tlv_wf (t : vnode_tlv_t) : Prop :=
  0 <= tlv_type t < VNODE_TLV_MAX /\
  0 < tlv_vallen t < 4294967296 /\
  tlv_vallen t = Z.of_nat (length (tlv_val t)).

(** The arguments [vnode_addtlv] takes for it. *)
Definition tlv_args (t : vnode_tlv_t) : Z * Z * list byte :=
  (tlv_type t, tlv_vallen t, tlv_val t).

Definition payload (tlvs : list vnode_tlv_t) : list byte :=
  flat_map tlv_bytes tlvs.

(** A framed message: header, then the TLVs back to back. *)
Definition wire_msg (type : Z) (tlvs : list vnode_tlv_t) : list byte :=
  le32_encode type ++ le32_encode (Z.of_nat (length (payload tlvs)))
  ++ payload tlvs.

(** The TLV carrying the [int32_t] [x]. *)
Definition tlv_of_int32 (type x : Z) : vnode_tlv_t :=
  {| tlv_type := type; tlv_vallen := 4; tlv_val := le32_encode x |}.

(** The TLV carrying the string [s]. *)
Definition tlv_of_string (type : Z) (s : cstring) : vnode_tlv_t :=
  {| tlv_type := type; tlv_vallen := Z.of_nat (strlen s) + 1;
     tlv_val := take (strlen s) s ++ [x00] |}.

Definition int32_range (x : Z) : Prop := -2147483648 <= x < 2147483648.

(** Handing a list of TLVs to a handler table, one after the other: what
    the walk of [vnode_parsemsg] amounts to on a payload made of well-formed
    TLVs. *)
Fixpoint dispatch {D} (tlvhandler : tlvtable D) (tlvs : list vnode_tlv_t)
    (tmp : Z) (data : D) : outcome (Z * D) :=
  match tlvs with
  | [] => Done (tmp, data)
  | tlv :: rest =>
    match tlvhandler (tlv_type tlv) with
    | None => dispatch tlvhandler rest tmp data
    | Some tlvhandlefn =>
      '(r, data') ← tlvhandlefn tlv data;
      if negb (r =? 0) then Done (r, data')
      else dispatch tlvhandler rest r data'
    end
  end.

(** A handler table that accepts every TLV and keeps the
    [{type, vallen, value}] triples it is given, in order. *)
Definition record_tlv : vnode_tlvhandler_t (list vnode_tlv_t) :=
  fun tlv seen => Done (0, seen ++ [tlv]).

Definition recorder : tlvtable (list vnode_tlv_t) := fun _ => Some record_tlv.

(** Memory as a process finds it when nothing was written: all zero. *)
Definition zero_heap : allocator := fun _ => Some (fun _ => x00).

(** A [sendmsg] that sends everything it is given. *)
Definition full_send : sendmsg_t := fun _ dg => Z.of_nat (length (dg_bytes dg)).

(** A sample TLV: [CMDID] 7. *)
Definition one_tlv : vnode_tlv_t := tlv_of_int32 VNODE_TLV_CMDID 7.

(** The three reasons for which [vnode_recvmsg] ignores the bytes [got] of
    a datagram, and what it takes for a message to be well formed. *)
Definition short_datagram (got : list byte) : Prop :=
  0 < Z.of_nat (length got) < sizeof_hdr.

Definition bad_type (got : list byte) : Prop :=
  exists type, hdr_type got = Some type
               /\ (type = VNODE_MSG_NONE \/ VNODE_MSG_MAX <= type).

Definition bad_length (got : list byte) : Prop :=
  exists datalen, hdr_datalen got = Some datalen
                  /\ datalen <> Z.of_nat (length got) - sizeof_hdr.

Definition well_formed (got : list byte) : Prop :=
  exists type, hdr_type got = Some type
               /\ VNODE_MSG_NONE < type < VNODE_MSG_MAX
               /\ hdr_datalen got = Some (Z.of_nat (length got) - sizeof_hdr).

(** The control data [vnode_sendmsg] attaches for a buffer. *)
Definition rights_of (mb : vnode_msgbuf_t) : option (Z * Z * Z) :=
  if 0 <=? infd mb then Some (infd mb, outfd mb, errfd mb) else None.

(** A buffer holding the frame of a CMDREQ with the given descriptors. *)
Definition cmdreq_buf (i o e : Z) : vnode_msgbuf_t :=
  {| msg := wire_msg VNODE_MSG_CMDREQ [tlv_of_int32 VNODE_TLV_CMDID 0];
     infd := i; outfd := o; errfd := e |}.

(** A TLV whose type is one past the last of [vnode_tlvtype_t], and the
    CMDSIGNAL frame that carries it alone. *)
Definition stray_tlv : vnode_tlv_t :=
  {| tlv_type := VNODE_TLV_MAX; tlv_vallen := 4; tlv_val := le32_encode 0 |}.

Definition stray_msg : list byte := wire_msg VNODE_MSG_CMDSIGNAL [stray_tlv].

(** The frame of [CMDSIGNAL{cmdid, signum}]. *)
Definition cmdsignal_msg (id sig : Z) : list byte :=
  wire_msg VNODE_MSG_CMDSIGNAL
    [tlv_of_int32 VNODE_TLV_CMDID id; tlv_of_int32 VNODE_TLV_SIGNUM sig].

(** A server tracking one command of client 1 (pid 100) and one of
    client 2 (pid 200), both with [cmdid] 0. *)
Definition two_owners : Server.vnode_server_t :=
  {| Server.cmdlisthead :=
       [ {| cmdid := 0; pid := 100; status := -1; data := 1 |};
         {| cmdid := 0; pid := 200; status := -1; data := 2 |} ] |}.

(** The value of the CMDARG TLV for a string: its bytes and the NUL. *)
Definition cmdarg_val (s : cstring) : list byte := take (strlen s) s ++ [x00].

(** The frame of [CMDREQ{cmdid, argv}]. *)
Definition cmdreq_msg (id : Z) (args : list cstring) : list byte :=
  wire_msg VNODE_MSG_CMDREQ
    (tlv_of_int32 VNODE_TLV_CMDID id
     :: map (tlv_of_string VNODE_TLV_CMDARG) args).

(** The [cmdarg] array once the strings [vals] were stored in it. *)
Definition cmdarg_filled (vals : list (list byte)) : list (option (list byte)) :=
  map Some vals ++ replicate (Z.to_nat VNODE_ARGMAX - length vals) None.

(** [VNODE_ARGMAX] arguments, each the string "a". *)
Definition argmax_args : list cstring :=
  replicate (Z.to_nat VNODE_ARGMAX) [x61].

(** A request as [vnode_recv_cmdreq] completes it: the parsed [cmdid], the
    descriptors that came with the message, the argument array. *)
Definition cmdreq_of (mb : vnode_msgbuf_t) (id : Z)
    (arr : list (option (list byte))) : Server.vnode_cmdreq_t :=
  {| Server.req_cmdid := id;
     Server.cmdio := (infd mb, outfd mb, errfd mb);
     Server.cmdarg := arr |}.

(** An environment in which everything succeeds; [fork] returns 4242. *)
Definition fair_env : Server.env :=
  {| Server.heap := zero_heap; Server.malloc_cmd := true;
     Server.fork_ret := 4242; Server.sendmsg := full_send |}.

Definition no_commands : Server.vnode_server_t :=
  {| Server.cmdlisthead := [] |}.

Definition client_one : Server.vnode_cliententry_t :=
  {| Server.client_ref := 1; Server.clientfd := 5 |}.

(** The receive buffer after a datagram without descriptors arrived. *)
Definition received (bytes : list byte) : vnode_msgbuf_t :=
  {| msg := bytes; infd := -1; outfd := -1; errfd := -1 |}.

(** The handle [vnode_client] returns for a connection on descriptor 3. *)
Definition new_client : Client.vnode_client_t :=
  {| Client.cmdlisthead := []; Client.serverfd := 3;
     Client.msgbuf := (vnode_initmsgbuf zero_heap).2;
     Client.next_cmdid := 0 |}.

(** An environment of the client in which everything succeeds. *)
Definition fair_client_env : Client.env :=
  {| Client.heap := zero_heap; Client.malloc_clientcmd := true;
     Client.malloc_cmd := true; Client.sendmsg := full_send |}.

(** The client process of [vcmd]: the standard streams and the connection
    are open, and the command is to use the standard streams. *)
Definition vcmd_state : Client.state :=
  {| Client.st_client := new_client;
     Client.st_cmdio := Client.VCMD_IO_FD 0 1 2;
     Client.st_open := {[0; 1; 2; 3]} |}.

(** The same process about to run a command without any I/O. *)
Definition quiet_state : Client.state :=
  {| Client.st_client := new_client;
     Client.st_cmdio := Client.VCMD_IO_NONE;
     Client.st_open := {[0; 1; 2; 3]} |}.

(** A process holding three pipes for the command: it reads its output,
    the child ends are 10, 13 and 15. *)
Definition pipe_state : Client.state :=
  {| Client.st_client := new_client;
     Client.st_cmdio := Client.VCMD_IO_PIPE 10 11 12 13 14 15;
     Client.st_open := {[0; 1; 2; 3; 10; 11; 12; 13; 14; 15]} |}.

(** The command "a", as an [argv]. *)
Definition argv_a : list (option cstring) := [Some [x61]; None].

(** The [cmdid] the next request gets. *)
Definition fresh_cmdid (client : Client.vnode_client_t) : Z :=
  if Client.next_cmdid client <? 0 then 0 else Client.next_cmdid client.

(** The handle once a request was queued with that [cmdid]. *)
Definition queued (client : Client.vnode_client_t) (cb : option Z) (data : Z)
  : Client.vnode_client_t :=
  {| Client.cmdlisthead :=
       Client.cmdlisthead client
       ++ [ {| cmdid := fresh_cmdid client; pid := -1; status := -1;
               data := {| Client.cmddonecb := cb; Client.cb_data := data |} |} ];
     Client.serverfd := Client.serverfd client;
     Client.msgbuf := Client.msgbuf client;
     Client.next_cmdid := Client.int32_incr (fresh_cmdid client) |}.

(** The datagram of a CMDREQ. *)
Definition cmdreq_dgram (id : Z) (args : list cstring) (fds : Z * Z * Z)
  : datagram :=
  {| dg_bytes := cmdreq_msg id args;
     dg_rights := let '(i, o, e) := fds in
                  if 0 <=? i then Some (i, o, e) else None |}.

(** The frames of [CMDREQACK{cmdid, pid}] and [CMDSTATUS{cmdid, status}]. *)
Definition cmdreqack_msg (id p : Z) : list byte :=
  wire_msg VNODE_MSG_CMDREQACK
    [tlv_of_int32 VNODE_TLV_CMDID id; tlv_of_int32 VNODE_TLV_CMDPID p].

Definition cmdstatus_msg (id st : Z) : list byte :=
  wire_msg VNODE_MSG_CMDSTATUS
    [tlv_of_int32 VNODE_TLV_CMDID id; tlv_of_int32 VNODE_TLV_CMDSTATUS st].

(** The callback [vnode_delclient] owes an entry, if the entry has one. *)
Definition closing_call (cmd : vnode_cmdentry_t Client.vnode_clientcmd_t)
  : list Client.cmddone_call :=
  match Client.cmddonecb (data cmd) with
  | Some cb => [Client.mk_call cb (cmdid cmd) (pid cmd) (-1)
                  (Client.cb_data (data cmd))]
  | None => []
  end.

(** A handle with one command in flight, [cmdid] 0, not yet acknowledged. *)
Definition one_inflight : Client.vnode_client_t :=
  queued new_client (Some 77) 5.

(** The handle with the message [bytes] in its reader's buffer [mb]. *)
Definition with_msg (client : Client.vnode_client_t) (mb : vnode_msgbuf_t)
    (bytes : list byte) : Client.vnode_client_t :=
  {| Client.cmdlisthead := Client.cmdlisthead client;
     Client.serverfd := Client.serverfd client;
     Client.msgbuf := set_msg mb bytes;
     Client.next_cmdid := Client.next_cmdid client |}.

(** A handle fresh from [vnode_client], before anything happened. *)
Definition new_history : Client.history :=
  {| Client.h_client := new_client; Client.h_open := {[0; 1; 2; 3]};
     Client.h_calls := []; Client.h_accepted := [] |}.

(** Two commands are submitted; the first is acknowledged with pid 100 and
    then reported finished with status 0. *)
Definition two_commands : list Client.step :=
  [ Client.Submit fair_client_env Client.VCMD_IO_NONE (Some 77) 5 1 argv_a;
    Client.Submit fair_client_env Client.VCMD_IO_NONE (Some 78) 6 1 argv_a;
    Client.Readable zero_heap (RecvData (cmdreqack_msg 0 100) None);
    Client.Readable zero_heap (RecvData (cmdstatus_msg 0 0) None) ].

(** What was accepted is what was completed and what is in flight. *)
Definition balanced (h : Client.history) : Prop :=
  omap Client.accepted_key (Client.h_accepted h)
  ≡ₚ map Client.call_key (Client.h_calls h)
     ++ omap Client.entry_key (Client.cmdlisthead (Client.h_client h)).

(** Where [two_commands] leaves a new handle. *)
Definition two_commands_end : Client.history :=
  match Client.run new_history two_commands with
  | Done h => h
  | _ => new_history
  end.

(** * Properties *)

(** ** Arithmetic of the byte codec *)

Ltac zbool :=
  repeat match goal with
  | |- context [?a <=? ?b] => destruct (Z.leb_spec a b)
  | |- context [?a <? ?b] => destruct (Z.ltb_spec a b)
  | |- context [?a >? ?b] => rewrite (Z.gtb_ltb a b)
  | |- context [?a >=? ?b] => rewrite (Z.geb_leb a b)
  | |- context [?a =? ?b] => destruct (Z.eqb_spec a b)
  end; simpl; try lia; try reflexivity.

Lemma byte_to_Z_range b : 0 <= byte_to_Z b < 256.
Proof.
  unfold byte_to_Z. pose proof (Byte.to_N_bounded b). lia.
Qed.

Lemma byte_to_of_Z z : byte_to_Z (byte_of_Z z) = z mod 256.
Proof.
  unfold byte_to_Z, byte_of_Z.
  assert (Hr : 0 <= z mod 256 < 256) by (apply Z.mod_pos_bound; lia).
  destruct (Byte.of_N (Z.to_N (z mod 256))) as [b|] eqn:E.
  - apply Byte.to_of_N in E. rewrite E. lia.
  - apply Byte.of_N_None_iff in E. lia.
Qed.

Lemma le32_decode_encode x :
  match le32_encode x with
  | [b0; b1; b2; b3] => le32_decode b0 b1 b2 b3 = x mod 4294967296
  | _ => False
  end.
Proof.
  unfold le32_encode, le32_decode. rewrite !byte_to_of_Z.
  Z.div_mod_to_equations. lia.
Qed.

Lemma le32_encode_length x : length (le32_encode x) = 4%nat.
Proof. reflexivity. Qed.

Lemma le32_decode_range b0 b1 b2 b3 :
  0 <= le32_decode b0 b1 b2 b3 < 4294967296.
Proof.
  unfold le32_decode.
  pose proof (byte_to_Z_range b0). pose proof (byte_to_Z_range b1).
  pose proof (byte_to_Z_range b2). pose proof (byte_to_Z_range b3). lia.
Qed.

Lemma load_u32_range buf off x :
  load_u32 buf off = Some x -> 0 <= x < 4294967296.
Proof.
  unfold load_u32. case_match; [|done].
  repeat case_match; try done. intros [= <-]. apply le32_decode_range.
Qed.

Lemma load_u32_app pre x post off :
  off = Z.of_nat (length pre) ->
  load_u32 (pre ++ le32_encode x ++ post) off = Some (x mod 4294967296).
Proof.
  intros ->. unfold load_u32.
  rewrite Nat2Z.id, drop_app_length.
  rewrite !length_app, le32_encode_length.
  zbool.
  pose proof (le32_decode_encode x) as Hx. unfold le32_encode in *. simpl.
  by rewrite Hx.
Qed.

Lemma int32_of_u32_wrap x :
  int32_range x -> int32_of_u32 (x mod 4294967296) = x.
Proof.
  unfold int32_range. intros H. unfold int32_of_u32.
  destruct (x mod 4294967296 <? 2147483648) eqn:E;
    Z.div_mod_to_equations; lia.
Qed.

(** ** The walk of [vnode_parsemsg], step by step *)

Section Walk.
Context {D : Type} (m : list byte) (tlvhandler : tlvtable D) (datalen : Z).

(** The walk ends where [offset] reaches [datalen]. *)
Lemma parse_loop_end n offset tmp (data : D) :
  datalen <= offset ->
  parse_loop n m tlvhandler datalen offset tmp data = Done (tmp, data).
Proof. intros H. destruct n; simpl; [done|]. zbool. Qed.

(** A TLV without value, or reaching beyond [datalen], is stepped over. *)
Lemma parse_loop_skip n offset tmp (data : D) type vallen :
  offset < datalen ->
  load_u32 m (sizeof_hdr + offset) = Some type ->
  load_u32 m (sizeof_hdr + offset + 4) = Some vallen ->
  vallen = 0 \/ datalen < offset + sizeof_tlv + vallen ->
  parse_loop (S n) m tlvhandler datalen offset tmp data
  = parse_loop n m tlvhandler datalen (offset + sizeof_tlv + vallen) tmp data.
Proof.
  intros Hlt Hty Hvl Hbad. cbn [parse_loop]. rewrite Hty, Hvl.
  cbn [of_option mbind outcome_bind].
  replace (offset <? datalen) with true by (symmetry; apply Z.ltb_lt; lia).
  replace ((vallen =? 0) || (offset + sizeof_tlv + vallen >? datalen))
    with true; [done|].
  symmetry. apply orb_true_iff. rewrite Z.eqb_eq, Z.gtb_ltb, Z.ltb_lt. lia.
Qed.

(** A TLV within the payload, of a type of the table: stepped over when
    the slot is empty, handed to the handler otherwise, whose result ends
    the walk when it is not 0. *)
Lemma parse_loop_dispatch n offset tmp (data : D) type vallen :
  offset < datalen ->
  load_u32 m (sizeof_hdr + offset) = Some type ->
  load_u32 m (sizeof_hdr + offset + 4) = Some vallen ->
  vallen <> 0 -> offset + sizeof_tlv + vallen <= datalen ->
  type < VNODE_TLV_MAX ->
  parse_loop (S n) m tlvhandler datalen offset tmp data
  = match tlvhandler type with
    | None =>
      parse_loop n m tlvhandler datalen (offset + sizeof_tlv + vallen) tmp data
    | Some tlvhandlefn =>
      '(r, data') ← tlvhandlefn
        {| tlv_type := type; tlv_vallen := vallen;
           tlv_val := take (Z.to_nat vallen)
             (drop (Z.to_nat (sizeof_hdr + offset + sizeof_tlv)) m) |} data;
      if negb (r =? 0) then Done (r, data')
      else parse_loop n m tlvhandler datalen (offset + sizeof_tlv + vallen)
             r data'
    end.
Proof.
  intros Hlt Hty Hvl Hnz Hfit Hmax. cbn [parse_loop]. rewrite Hty, Hvl.
  cbn [of_option mbind outcome_bind].
  replace (offset <? datalen) with true by (symmetry; apply Z.ltb_lt; lia).
  replace (vallen =? 0) with false by (symmetry; apply Z.eqb_neq; lia).
  replace (offset + sizeof_tlv + vallen >? datalen) with false
    by (symmetry; rewrite Z.gtb_ltb; apply Z.ltb_ge; lia).
  replace (type <? VNODE_TLV_MAX) with true by (symmetry; apply Z.ltb_lt; lia).
  reflexivity.
Qed.

End Walk.

(** ** The walk of [vnode_parsemsg] over well-formed TLVs *)

Lemma tlv_bytes_length t :
  Z.of_nat (length (tlv_bytes t)) = 8 + Z.of_nat (length (tlv_val t)).
Proof. unfold tlv_bytes. rewrite !length_app, !le32_encode_length. lia. Qed.

Lemma parse_loop_payload {D} (tbl : tlvtable D) tlvs :
  forall n m datalen offset tmp data pre post,
  m = pre ++ payload tlvs ++ post ->
  Z.of_nat (length pre) = sizeof_hdr + offset ->
  datalen = offset + Z.of_nat (length (payload tlvs)) ->
  Forall tlv_wf tlvs ->
  datalen - offset <= Z.of_nat n ->
  parse_loop n m tbl datalen offset tmp data = dispatch tbl tlvs tmp data.
Proof.
  induction tlvs as [|t ts IH]; intros n m datalen offset tmp data pre post
    Hm Hpre Hlen Hwf Hn.
  - unfold payload in Hlen. simpl in Hlen. destruct n; simpl; [done|]. zbool.
  - apply Forall_cons in Hwf as [(Hty & Hvl & Hval) Hwf].
    unfold payload in *. simpl in Hlen, Hm. rewrite length_app in Hlen.
    pose proof (tlv_bytes_length t) as Hb.
    destruct n as [|n]; [lia|].
    cbn [parse_loop dispatch].
    assert (Hlt : (offset <? datalen) = true) by (apply Z.ltb_lt; lia).
    rewrite Hlt.
    assert (Hm1 : m = pre ++ le32_encode (tlv_type t) ++
                   (le32_encode (tlv_vallen t) ++ tlv_val t ++ flat_map tlv_bytes ts ++ post)).
    { rewrite Hm. unfold tlv_bytes. by rewrite <- !app_assoc. }
    assert (Hm2 : m = (pre ++ le32_encode (tlv_type t)) ++ le32_encode (tlv_vallen t) ++
                   (tlv_val t ++ flat_map tlv_bytes ts ++ post)).
    { rewrite Hm1. by rewrite <- !app_assoc. }
    assert (Hm3 : m = (pre ++ le32_encode (tlv_type t) ++ le32_encode (tlv_vallen t)) ++
                   tlv_val t ++ (flat_map tlv_bytes ts ++ post)).
    { rewrite Hm1. by rewrite <- !app_assoc. }
    assert (L1 : load_u32 m (sizeof_hdr + offset) = Some (tlv_type t)).
    { rewrite Hm1, load_u32_app by lia.
      by rewrite Z.mod_small by (unfold VNODE_TLV_MAX in *; lia). }
    assert (L2 : load_u32 m (sizeof_hdr + offset + 4) = Some (tlv_vallen t)).
    { rewrite Hm2, load_u32_app
        by (rewrite length_app, le32_encode_length; lia).
      by rewrite Z.mod_small by lia. }
    rewrite L1, L2.
    cbn [of_option mbind outcome_bind].
    assert (Hv0 : (tlv_vallen t =? 0) = false) by (apply Z.eqb_neq; lia).
    assert (Hgt : (offset + sizeof_tlv + tlv_vallen t >? datalen) = false).
    { rewrite Z.gtb_ltb. apply Z.ltb_ge. unfold sizeof_tlv. lia. }
    assert (Hmax : (tlv_type t <? VNODE_TLV_MAX) = true) by (apply Z.ltb_lt; lia).
    rewrite Hv0, Hgt, Hmax. cbn [orb negb].
    assert (Hval' : take (Z.to_nat (tlv_vallen t))
              (drop (Z.to_nat (sizeof_hdr + offset + sizeof_tlv)) m) = tlv_val t).
    { rewrite Hm3.
      replace (Z.to_nat (sizeof_hdr + offset + sizeof_tlv))
        with (length (pre ++ le32_encode (tlv_type t) ++ le32_encode (tlv_vallen t))).
      2:{ rewrite !length_app, !le32_encode_length. unfold sizeof_tlv. lia. }
      rewrite drop_app_length.
      replace (Z.to_nat (tlv_vallen t)) with (length (tlv_val t)) by lia.
      by rewrite take_app_length. }
    rewrite Hval'.
    assert (Ht : {| tlv_type := tlv_type t; tlv_vallen := tlv_vallen t;
                    tlv_val := tlv_val t |} = t) by (by destruct t).
    rewrite Ht.
    assert (Hrec : forall tmp' data',
      parse_loop n m tbl datalen (offset + sizeof_tlv + tlv_vallen t) tmp' data'
      = dispatch tbl ts tmp' data').
    { intros tmp' data'.
      apply (IH n m datalen _ tmp' data' (pre ++ tlv_bytes t) post).
      - rewrite Hm. by rewrite <- !app_assoc.
      - rewrite length_app. unfold sizeof_tlv, sizeof_hdr in *. lia.
      - unfold sizeof_tlv. lia.
      - done.
      - unfold sizeof_tlv. lia. }
    destruct (tbl (tlv_type t)) as [h|]; [|apply Hrec].
    destruct (h t data) as [[r d']| |]; cbn [mbind outcome_bind]; try done.
    destruct (negb (r =? 0)); [done|apply Hrec].
Qed.

(** The number of iterations allowed to the loop does not matter once it
    covers the payload. *)
Lemma parse_loop_enough {D} (tbl : tlvtable D) m datalen :
  forall n1 n2 offset tmp data,
  0 <= offset ->
  datalen - offset <= Z.of_nat n1 ->
  datalen - offset <= Z.of_nat n2 ->
  parse_loop n1 m tbl datalen offset tmp data
  = parse_loop n2 m tbl datalen offset tmp data.
Proof.
  induction n1 as [|n1 IH]; intros n2 offset tmp data Hoff H1 H2.
  - destruct n2; simpl; [done|]. zbool.
  - destruct n2 as [|n2]; simpl.
    + zbool.
    + destruct (Z.ltb_spec offset datalen); [|done].
      destruct (load_u32 m (sizeof_hdr + offset)) as [ty|]; [|done].
      destruct (load_u32 m (sizeof_hdr + offset + 4)) as [vl|] eqn:Evl; [|done].
      apply load_u32_range in Evl.
      cbn [of_option mbind outcome_bind].
      assert (Hnext : forall tmp' data',
        parse_loop n1 m tbl datalen (offset + sizeof_tlv + vl) tmp' data'
        = parse_loop n2 m tbl datalen (offset + sizeof_tlv + vl) tmp' data')
        by (intros; apply IH; unfold sizeof_tlv; lia).
      destruct (_ || _); [apply Hnext|].
      destruct (negb _); [done|].
      destruct (tbl ty) as [h|]; [|apply Hnext].
      destruct (h _ data) as [[r d']| |]; cbn [mbind outcome_bind]; try done.
      destruct (negb (r =? 0)); [done|apply Hnext].
Qed.

Lemma payload_app l1 l2 : payload (l1 ++ l2) = payload l1 ++ payload l2.
Proof. unfold payload. by rewrite flat_map_app. Qed.

Lemma payload_cons t l : payload (t :: l) = tlv_bytes t ++ payload l.
Proof. reflexivity. Qed.

Lemma payload_length_bound tlvs :
  Forall tlv_wf tlvs -> Z.of_nat (length (payload tlvs)) >= 9 * Z.of_nat (length tlvs).
Proof.
  induction 1 as [|t ts (?&?&?) _ IH]; [simpl; lia|].
  rewrite payload_cons, length_app. cbn [length].
  pose proof (tlv_bytes_length t). lia.
Qed.

(** Parsing a framed message: the header is read back and the TLVs are
    dispatched in order, whatever follows the message in the buffer. *)
Lemma parsemsg_wire {D} (tbl : tlvtable D) type tlvs junk data :
  Forall tlv_wf tlvs ->
  Z.of_nat (length (payload tlvs)) < 4294967296 ->
  vnode_parsemsg (wire_msg type tlvs ++ junk) data tbl
  = dispatch tbl tlvs (-1) data.
Proof.
  intros Hwf Hlen. unfold vnode_parsemsg, hdr_datalen, wire_msg.
  rewrite <- !app_assoc.
  rewrite (load_u32_app (le32_encode type)) by done.
  rewrite Z.mod_small by lia.
  cbn [of_option mbind outcome_bind app].
  apply (parse_loop_payload tbl tlvs _ _ _ 0 (-1) data
           (le32_encode type ++ le32_encode (Z.of_nat (length (payload tlvs))))
           junk).
  - by rewrite <- !app_assoc.
  - rewrite length_app, !le32_encode_length. done.
  - lia.
  - done.
  - lia.
Qed.

Lemma hdr_type_wire type tlvs junk :
  hdr_type (wire_msg type tlvs ++ junk) = Some (type mod 4294967296).
Proof.
  unfold hdr_type, wire_msg. rewrite <- !app_assoc.
  by apply (load_u32_app []).
Qed.

(** ** What [vnode_addtlv] and the senders write *)

Lemma store_bytes_app pre old post bs off :
  off = Z.of_nat (length pre) -> length old = length bs ->
  store_bytes (pre ++ old ++ post) off bs = Some (pre ++ bs ++ post).
Proof.
  intros -> Hlen. unfold store_bytes.
  rewrite !length_app, Nat2Z.id. zbool.
  rewrite take_app_length. rewrite <- Hlen.
  rewrite <- drop_drop, drop_app_length, drop_app_length. done.
Qed.

Lemma load_bytes_all bs n :
  n = Z.of_nat (length bs) -> load_bytes bs 0 n = Some bs.
Proof.
  intros ->. unfold load_bytes. zbool.
  rewrite Nat2Z.id. change (Z.to_nat 0) with 0%nat. rewrite drop_0.
  by rewrite firstn_all.
Qed.

Lemma realloc_buf_length old size fresh :
  0 <= size -> length (realloc_buf old size fresh) = Z.to_nat size.
Proof.
  intros H. unfold realloc_buf.
  rewrite length_app, length_take, length_map, length_seq. lia.
Qed.

Lemma vnode_addtlv_fits heap mb offset t pre junk :
  msg mb = pre ++ junk ->
  Z.of_nat (length pre) = sizeof_hdr + offset ->
  tlv_vallen t = Z.of_nat (length (tlv_val t)) ->
  Z.of_nat (length (tlv_bytes t)) <= Z.of_nat (length junk) ->
  vnode_addtlv heap mb offset (tlv_type t) (tlv_vallen t) (tlv_val t)
  = Done (sizeof_tlv + tlv_vallen t,
          set_msg mb (pre ++ tlv_bytes t ++ drop (length (tlv_bytes t)) junk)).
Proof.
  intros Hm Hpre Hval Hfit. unfold vnode_addtlv.
  pose proof (tlv_bytes_length t) as Hb.
  assert (Hsz : (sizeof_hdr + offset + (sizeof_tlv + tlv_vallen t)
                 >? msgbufsize mb) = false).
  { unfold msgbufsize. rewrite Hm, length_app, Z.gtb_ltb.
    apply Z.ltb_ge. unfold sizeof_tlv. lia. }
  rewrite Hsz. cbn [negb Z.eqb].
  rewrite load_bytes_all by done. cbn [of_option mbind outcome_bind].
  rewrite Hm.
  rewrite <- (take_drop (length (tlv_bytes t)) junk) at 1.
  change (le32_encode (tlv_type t) ++ le32_encode (tlv_vallen t) ++ tlv_val t)
    with (tlv_bytes t).
  rewrite (store_bytes_app pre _ _ (tlv_bytes t)).
  - done.
  - lia.
  - rewrite length_take. lia.
Qed.

Lemma ADDTLV_fits heap tlvs :
  forall mb offset pre junk,
  msg mb = pre ++ junk ->
  Z.of_nat (length pre) = sizeof_hdr + offset ->
  Forall tlv_wf tlvs ->
  Z.of_nat (length (payload tlvs)) <= Z.of_nat (length junk) ->
  ADDTLV heap mb offset (map tlv_args tlvs)
  = Done (Some (set_msg mb (pre ++ payload tlvs
                             ++ drop (length (payload tlvs)) junk),
                offset + Z.of_nat (length (payload tlvs)))).
Proof.
  induction tlvs as [|t ts IH]; intros mb offset pre junk Hm Hpre Hwf Hfit.
  - simpl. rewrite drop_0, Z.add_0_r. rewrite <- Hm. by destruct mb.
  - apply Forall_cons in Hwf as [(Hty & Hvl & Hval) Hwf].
    rewrite payload_cons, length_app in Hfit.
    cbn [map ADDTLV tlv_args].
    rewrite (vnode_addtlv_fits heap mb offset t pre junk) by (done || lia).
    cbn [mbind outcome_bind].
    assert (Hneg : (sizeof_tlv + tlv_vallen t <? 0) = false)
      by (apply Z.ltb_ge; unfold sizeof_tlv; lia).
    rewrite Hneg.
    rewrite (IH _ _ (pre ++ tlv_bytes t) (drop (length (tlv_bytes t)) junk)).
    + pose proof (tlv_bytes_length t).
      rewrite payload_cons, length_app, drop_drop.
      f_equal. f_equal. f_equal.
      * unfold set_msg. simpl. by rewrite <- !app_assoc.
      * unfold sizeof_tlv. lia.
    + simpl. by rewrite <- app_assoc.
    + pose proof (tlv_bytes_length t).
      rewrite length_app. unfold sizeof_tlv. lia.
    + done.
    + rewrite length_drop. lia.
Qed.

(** What the senders build is the framed message, followed by the part of
    the buffer they did not write. *)
Lemma build_msg_wire heap fresh type tlvs fds :
  heap VNODE_MSGSIZMAX = Some fresh ->
  Forall tlv_wf tlvs ->
  sizeof_hdr + Z.of_nat (length (payload tlvs)) <= VNODE_MSGSIZMAX ->
  exists junk,
    build_msg heap type (map tlv_args tlvs) fds
    = Done (Some {| msg := wire_msg type tlvs ++ junk;
                    infd := match fds with Some (i, _, _) => i | None => -1 end;
                    outfd := match fds with Some (_, o, _) => o | None => -1 end;
                    errfd := match fds with Some (_, _, e) => e | None => -1 end |})
    /\ Z.of_nat (length (wire_msg type tlvs ++ junk)) = VNODE_MSGSIZMAX.
Proof.
  intros Hheap Hwf Hfit.
  unfold build_msg, vnode_initmsgbuf, vnode_resizemsgbuf. rewrite Hheap.
  cbn [negb Z.eqb].
  set (B := realloc_buf (msg INIT_MSGBUF) VNODE_MSGSIZMAX fresh).
  assert (HB : Z.of_nat (length B) = VNODE_MSGSIZMAX).
  { subst B. rewrite realloc_buf_length; unfold VNODE_MSGSIZMAX; lia. }
  clearbody B.
  unfold VNODE_MSGSIZMAX, sizeof_hdr in *.
  set (h1 := take 4 B). set (h2 := take 4 (drop 4 B)). set (rest := drop 8 B).
  assert (HBs : B = (h1 ++ h2) ++ rest).
  { subst h1 h2 rest. change 8%nat with (4 + 4)%nat.
    rewrite <- (drop_drop B 4 4).
    rewrite <- app_assoc. by rewrite !take_drop. }
  assert (Hh1 : length h1 = 4%nat) by (subst h1; rewrite length_take; lia).
  assert (Hh2 : length h2 = 4%nat)
    by (subst h2; rewrite length_take, length_drop; lia).
  assert (Hrest : Z.of_nat (length rest) = 65527)
    by (subst rest; rewrite length_drop; lia).
  rewrite (ADDTLV_fits heap tlvs _ 0 (h1 ++ h2) rest); try done.
  2:{ rewrite length_app. unfold sizeof_hdr. lia. }
  2:{ lia. }
  cbn [mbind outcome_bind].
  set (junk := drop (length (payload tlvs)) rest).
  exists junk.
  assert (Hmsg : forall mb i o e, msg (set_fds mb i o e) = msg mb) by done.
  assert (Hst : forall mb : vnode_msgbuf_t,
    msg mb = (h1 ++ h2) ++ payload tlvs ++ junk ->
    (of_option (store_u32 (msg mb) 0 type) ≫= λ m1,
      of_option (store_u32 m1 4 (0 + Z.of_nat (length (payload tlvs)))) ≫= λ m2,
        Done (Some (set_msg mb m2)))
    = Done (Some (set_msg mb (wire_msg type tlvs ++ junk)))).
  { intros mb ->. unfold store_u32.
    rewrite <- app_assoc.
    pose proof (store_bytes_app [] h1 (h2 ++ payload tlvs ++ junk)
                  (le32_encode type) 0 eq_refl Hh1) as E0.
    cbn [app] in E0. rewrite E0.
    cbn [of_option mbind outcome_bind app].
    rewrite (store_bytes_app (le32_encode type) h2 _) by done.
    cbn [of_option mbind outcome_bind]. unfold wire_msg.
    by rewrite <- !app_assoc. }
  split.
  - destruct fds as [[[i o] e]|]; rewrite Hst; done.
  - unfold wire_msg. subst junk.
    rewrite !length_app, !le32_encode_length, length_drop. lia.
Qed.

(** ** Round trip of the wire codec *)

Lemma dispatch_recorder tlvs :
  forall tmp seen,
  dispatch recorder tlvs tmp seen
  = Done (match tlvs with [] => tmp | _ => 0 end, seen ++ tlvs).
Proof.
  induction tlvs as [|t ts IH]; intros tmp seen; simpl.
  - by rewrite app_nil_r.
  - rewrite IH. rewrite <- app_assoc. simpl. by destruct ts.
Qed.

(** C9. Round trip of the wire codec: for every message type and every
    list of TLVs of the protocol (a type of the TLV enumeration, a value
    that is not empty) that fits in the maximum frame, the buffer built by
    successive [vnode_addtlv] calls, once its header is set, carries that
    header type, and [vnode_parsemsg] hands the handlers exactly the same
    [{type, vallen, value}] triples, in the same order. *)
Theorem vnode_addtlv_parsemsg_roundtrip heap type tlvs :
  is_Some (heap VNODE_MSGSIZMAX) ->
  VNODE_MSG_NONE < type < VNODE_MSG_MAX ->
  Forall tlv_wf tlvs ->
  sizeof_hdr + Z.of_nat (length (payload tlvs)) <= VNODE_MSGSIZMAX ->
  exists mb,
    build_msg heap type (map tlv_args tlvs) None = Done (Some mb)
    /\ hdr_type (msg mb) = Some type
    /\ vnode_parsemsg (msg mb) [] recorder
       = Done (match tlvs with [] => -1 | _ => 0 end, tlvs).
Proof.
  intros [fresh Hheap] Hty Hwf Hfit.
  destruct (build_msg_wire heap fresh type tlvs None Hheap Hwf Hfit)
    as (junk & Hb & _).
  eexists. split; [exact Hb|]. cbn [msg]. split.
  - rewrite hdr_type_wire, Z.mod_small; [done|].
    unfold VNODE_MSG_NONE, VNODE_MSG_MAX in *. lia.
  - rewrite parsemsg_wire.
    + rewrite dispatch_recorder. done.
    + done.
    + unfold VNODE_MSGSIZMAX, sizeof_hdr in *. lia.
Qed.

Lemma vnode_addtlv_parsemsg_roundtrip_witness :
  exists mb,
    build_msg zero_heap VNODE_MSG_CMDSIGNAL (map tlv_args [one_tlv]) None
    = Done (Some mb)
    /\ hdr_type (msg mb) = Some VNODE_MSG_CMDSIGNAL
    /\ vnode_parsemsg (msg mb) [] recorder = Done (0, [one_tlv]).
Proof.
  apply (vnode_addtlv_parsemsg_roundtrip zero_heap VNODE_MSG_CMDSIGNAL [one_tlv]).
  - by eexists.
  - unfold VNODE_MSG_NONE, VNODE_MSG_CMDSIGNAL, VNODE_MSG_MAX. lia.
  - repeat constructor; simpl; unfold VNODE_TLV_CMDID, VNODE_TLV_MAX; lia.
  - vm_compute. discriminate.
Defined.

(** ** Receiving a datagram *)

Lemma load_u32_is_Some buf off :
  0 <= off -> off + 4 <= Z.of_nat (length buf) -> is_Some (load_u32 buf off).
Proof.
  intros H0 H4. unfold load_u32. zbool.
  assert (Hd : (4 <= length (drop (Z.to_nat off) buf))%nat)
    by (rewrite length_drop; lia).
  destruct (drop (Z.to_nat off) buf) as [|b0 [|b1 [|b2 [|b3 l]]]];
    simpl in Hd; try lia. by eexists.
Qed.

Lemma load_u32_app_l l1 l2 off :
  0 <= off -> off + 4 <= Z.of_nat (length l1) ->
  load_u32 (l1 ++ l2) off = load_u32 l1 off.
Proof.
  intros H0 H4. unfold load_u32. rewrite length_app. zbool.
  rewrite drop_app_le by lia.
  assert (Hd : (4 <= length (drop (Z.to_nat off) l1))%nat)
    by (rewrite length_drop; lia).
  destruct (drop (Z.to_nat off) l1) as [|b0 [|b1 [|b2 [|b3 l]]]];
    simpl in Hd; try lia. done.
Qed.

Lemma load_u32_Some_length buf off x :
  load_u32 buf off = Some x -> 0 <= off /\ off + 4 <= Z.of_nat (length buf).
Proof.
  unfold load_u32. destruct (Z.leb_spec 0 off); [|done].
  destruct (Z.leb_spec (off + 4) (Z.of_nat (length buf))); [|done]. done.
Qed.

(** The buffer [vnode_recvmsg] receives into. *)
Lemma recv_buffer heap mb :
  VNODE_MSGSIZMAX <= msgbufsize mb \/ is_Some (heap VNODE_MSGSIZMAX) ->
  exists mb1,
    (if msgbufsize mb <? VNODE_MSGSIZMAX
     then vnode_resizemsgbuf heap mb VNODE_MSGSIZMAX else (0, mb)) = (0, mb1)
    /\ VNODE_MSGSIZMAX <= msgbufsize mb1.
Proof.
  intros H. destruct (Z.ltb_spec (msgbufsize mb) VNODE_MSGSIZMAX) as [Hlt|Hge].
  - destruct H as [H|[fresh H]]; [lia|].
    unfold vnode_resizemsgbuf. rewrite H. eexists. split; [done|].
    unfold msgbufsize. cbn [msg set_msg].
    rewrite realloc_buf_length; unfold VNODE_MSGSIZMAX; lia.
  - eexists. split; [done|lia].
Qed.

(** The size of the buffer [vnode_recvmsg] receives into: the size it
    has, or [VNODE_MSGSIZMAX] if that is larger. *)
Lemma recv_buffer_size heap mb mb1 :
  (if msgbufsize mb <? VNODE_MSGSIZMAX
   then vnode_resizemsgbuf heap mb VNODE_MSGSIZMAX else (0, mb)) = (0, mb1) ->
  msgbufsize mb1 = Z.max (msgbufsize mb) VNODE_MSGSIZMAX.
Proof.
  destruct (Z.ltb_spec (msgbufsize mb) VNODE_MSGSIZMAX) as [Hlt|Hge].
  - unfold vnode_resizemsgbuf.
    destruct (heap VNODE_MSGSIZMAX) as [fresh|]; [|done].
    intros [= <-]. unfold msgbufsize. cbn [msg set_msg].
    rewrite realloc_buf_length by (unfold VNODE_MSGSIZMAX; lia).
    unfold msgbufsize, VNODE_MSGSIZMAX in *. lia.
  - intros [= <-]. lia.
Qed.

(** C5. Whenever [vnode_recvmsg] gets to receive (its buffer holds a maximum
    frame, or can be grown to), it returns with a buffer of at least the
    maximum frame size. Of a datagram it takes what fits the buffer it
    receives into, which is the buffer it was given, grown to the maximum
    frame size if it was smaller. It returns 0, keeping the connection,
    when [recvmsg] fails with [EAGAIN] and when that datagram is shorter
    than the 8-byte header, has a header type equal to NONE or at least
    MAX, or a payload length other than [recvlen - 8], and only then; it
    returns a negative value exactly when the receive length is 0 (peer
    closed) or [recvmsg] failed with another [errno]; a positive return is
    the byte count of a well-formed message, which is then in the
    buffer. *)
Theorem vnode_recvmsg_result heap recvmsg mb :
  VNODE_MSGSIZMAX <= msgbufsize mb \/ is_Some (heap VNODE_MSGSIZMAX) ->
  exists r mb',
    vnode_recvmsg heap recvmsg mb = Done (r, mb')
    /\ msgbufsize mb' = Z.max (msgbufsize mb) VNODE_MSGSIZMAX
    /\ match recvmsg with
       | RecvError errno =>
         (r = 0 <-> errno = EAGAIN) /\ (r < 0 <-> errno <> EAGAIN)
       | RecvData bytes _ =>
         let iov_len := Z.max (msgbufsize mb) VNODE_MSGSIZMAX in
         let got := take (Z.to_nat iov_len) bytes in
         (r = 0 <-> short_datagram got \/ bad_type got \/ bad_length got)
         /\ (r < 0 <-> got = [])
         /\ (0 < r -> r = Z.of_nat (length got) /\ well_formed got
                      /\ take (length got) (msg mb') = got)
       end.
Proof.
  intros Hbuf. destruct (recv_buffer heap mb Hbuf) as (mb1 & Hmb1 & Hsz).
  pose proof (recv_buffer_size heap mb mb1 Hmb1) as Hmax.
  unfold vnode_recvmsg. rewrite Hmb1. cbn [negb Z.eqb].
  destruct recvmsg as [errno|bytes cmsg].
  - destruct (Z.eqb_spec errno EAGAIN); eexists _, _;
      (split; [done|]); (split; [exact Hmax|]); lia.
  - cbn [msg set_fds]. cbv zeta. rewrite <- Hmax.
    replace (Z.to_nat (msgbufsize mb1)) with (length (msg mb1))
      by (unfold msgbufsize; lia).
    set (B := msg mb1) in *.
    assert (HB : VNODE_MSGSIZMAX <= Z.of_nat (length B)) by done.
    set (got := take (length B) bytes).
    assert (Hgot : (length got <= length B)%nat)
      by (subst got; rewrite length_take; lia).
    destruct (Z.eqb_spec (Z.of_nat (length got)) 0) as [H0|H0].
    { eexists _, _. split; [done|]. split; [done|].
      assert (got = []) as -> by (destruct got; [done|simpl in H0; lia]).
      unfold short_datagram, bad_type, bad_length, hdr_type, hdr_datalen.
      simpl. split_and!; try lia; try done.
      split; [lia|]. intros [?|[(?&?&?)|(?&?&?)]]; [lia|done|done]. }
    set (m := got ++ drop (length got) B).
    assert (Hm : length m = length B).
    { subst m. rewrite length_app, length_drop. lia. }
    set (mb4 := match cmsg with
                | Some (cmsg_type, (fd0, fd1, fd2)) => _
                | None => _ end).
    assert (Hmb4 : msg mb4 = m).
    { subst mb4. destruct cmsg as [[ty [[a b] c]]|]; [|done].
      by destruct (ty =? SCM_RIGHTS). }
    assert (Hsz4 : msgbufsize mb4 = msgbufsize mb1).
    { unfold msgbufsize. fold B. rewrite Hmb4, Hm. done. }
    assert (Htake : take (length got) m = got)
      by (subst m; by rewrite take_app_length).
    destruct (Z.ltb_spec (Z.of_nat (length got)) sizeof_hdr) as [Hs|Hs].
    { eexists _, _. split; [done|]. split; [exact Hsz4|].
      split_and!; [|split;[lia|]|lia].
      - split; [|done]. intros _. left. unfold short_datagram. lia.
      - intros E. rewrite E in H0. simpl in H0. lia. }
    rewrite Hmb4.
    unfold sizeof_hdr in *.
    assert (Ety : hdr_type m = hdr_type got)
      by (subst m; apply load_u32_app_l; lia).
    assert (Edl : hdr_datalen m = hdr_datalen got)
      by (subst m; apply load_u32_app_l; lia).
    rewrite Ety, Edl.
    destruct (load_u32_is_Some got 0) as [ty Hty]; [lia|lia|].
    destruct (load_u32_is_Some got 4) as [dl Hdl]; [lia|lia|].
    unfold hdr_type, hdr_datalen in *. rewrite Hty, Hdl.
    cbn [of_option mbind outcome_bind].
    pose proof (load_u32_range _ _ _ Hty) as Rty.
    assert (Hne : got <> []) by (intros E; rewrite E in H0; simpl in H0; lia).
    destruct ((ty =? VNODE_MSG_NONE) || (ty >=? VNODE_MSG_MAX)) eqn:Ebad.
    { eexists _, _. split; [done|]. split; [exact Hsz4|].
      split_and!; [|split;[lia|done]|lia].
      split; [|done]. intros _. right. left. exists ty.
      unfold bad_type, hdr_type. split; [done|].
      apply orb_true_iff in Ebad as [E|E]; [left|right]; lia. }
    apply orb_false_iff in Ebad as [E1 E2].
    destruct (Z.eqb_spec (Z.of_nat (length got) - 8) dl) as [El|El];
      cbn [negb].
    + eexists _, _. split; [done|]. split; [exact Hsz4|]. rewrite Hmb4.
      split_and!.
      * split; [lia|]. intros [Hsh|[(ty'&Hty'&Hb)|(dl'&Hdl'&Hb)]].
        -- unfold short_datagram, sizeof_hdr in Hsh. lia.
        -- unfold hdr_type in Hty'. rewrite Hty in Hty'.
           injection Hty' as <-. lia.
        -- unfold hdr_datalen in Hdl'. rewrite Hdl in Hdl'.
           injection Hdl' as <-. unfold sizeof_hdr in Hb. lia.
      * split; [lia|done].
      * intros _. split; [done|]. split; [|done].
        exists ty. unfold hdr_type, hdr_datalen, sizeof_hdr.
        rewrite Hty, Hdl. split_and!; try done; try lia.
        -- unfold VNODE_MSG_NONE in *. lia.
        -- by rewrite El.
    + eexists _, _. split; [done|]. split; [exact Hsz4|].
      split_and!; [|split;[lia|done]|lia].
      split; [|done]. intros _. right. right. exists dl.
      unfold hdr_datalen, sizeof_hdr. split; [done|lia].
Qed.

(** Without a buffer of the maximum frame size, and none to be had,
    nothing is received. *)
Lemma vnode_recvmsg_no_buffer heap recvmsg mb :
  msgbufsize mb < VNODE_MSGSIZMAX -> heap VNODE_MSGSIZMAX = None ->
  vnode_recvmsg heap recvmsg mb = Done (-1, mb).
Proof.
  intros Hsz Hheap. unfold vnode_recvmsg, vnode_resizemsgbuf.
  replace (msgbufsize mb <? VNODE_MSGSIZMAX) with true
    by (symmetry; apply Z.ltb_lt; lia).
  rewrite Hheap. reflexivity.
Qed.

(** ** Sending a datagram *)

Lemma wire_msg_length type tlvs :
  Z.of_nat (length (wire_msg type tlvs))
  = sizeof_hdr + Z.of_nat (length (payload tlvs)).
Proof.
  unfold wire_msg. rewrite !length_app, !le32_encode_length.
  unfold sizeof_hdr. lia.
Qed.

Lemma hdr_datalen_wire type tlvs junk :
  Z.of_nat (length (payload tlvs)) < 4294967296 ->
  hdr_datalen (wire_msg type tlvs ++ junk)
  = Some (Z.of_nat (length (payload tlvs))).
Proof.
  intros H. unfold hdr_datalen, wire_msg. rewrite <- !app_assoc.
  rewrite (load_u32_app (le32_encode type)) by done.
  by rewrite Z.mod_small by lia.
Qed.

Lemma load_bytes_prefix l junk n :
  n = Z.of_nat (length l) -> load_bytes (l ++ junk) 0 n = Some l.
Proof.
  intros ->. unfold load_bytes. rewrite length_app. zbool.
  rewrite Nat2Z.id. change (Z.to_nat 0) with 0%nat.
  by rewrite drop_0, take_app_length.
Qed.

(** C2, as amended. The control data of a message is all or nothing, and
    [infd] decides: with [infd >= 0] the three values [(infd, outfd, errfd)]
    travel in one [SCM_RIGHTS] message, and [vnode_sendmsg] asserts that
    [outfd] and [errfd] are not negative either; with [infd < 0] no
    descriptor is attached, whatever [outfd] and [errfd] hold. *)
Theorem vnode_sendmsg_rights sendmsg fd mb iov :
  (vnode_msglen mb ≫= load_bytes (msg mb) 0) = Some iov ->
  match vnode_sendmsg sendmsg fd mb with
  | Done (n, dg) =>
    n = sendmsg fd dg /\ dg_bytes dg = iov
    /\ (infd mb < 0 /\ dg_rights dg = None
        \/ 0 <= infd mb /\ 0 <= outfd mb /\ 0 <= errfd mb
           /\ dg_rights dg = Some (infd mb, outfd mb, errfd mb))
  | Aborted => 0 <= infd mb /\ (outfd mb < 0 \/ errfd mb < 0)
  | Undef => False
  end.
Proof.
  intros Hiov. unfold vnode_sendmsg.
  destruct (vnode_msglen mb) as [len|]; [|done].
  cbn [mbind option_bind] in Hiov.
  cbn [of_option mbind outcome_bind].
  destruct (Z.leb_spec 0 (infd mb)) as [Hi|Hi].
  - destruct (Z.leb_spec 0 (outfd mb)) as [Ho|Ho]; cbn [negb].
    + destruct (Z.leb_spec 0 (errfd mb)) as [He|He]; cbn [negb].
      * cbn [mbind outcome_bind]. rewrite Hiov.
        cbn [of_option mbind outcome_bind]. split_and!; try done.
        right. done.
      * cbn [mbind outcome_bind]. split; [done|by right].
    + cbn [mbind outcome_bind]. split; [done|by left].
  - cbn [mbind outcome_bind]. rewrite Hiov.
    cbn [of_option mbind outcome_bind]. split_and!; try done. by left.
Qed.

Lemma vnode_sendmsg_rights_witness :
  match vnode_sendmsg full_send 3 (cmdreq_buf 0 1 2) with
  | Done (n, dg) =>
    n = full_send 3 dg /\ dg_bytes dg = msg (cmdreq_buf 0 1 2)
    /\ (0 < 0 /\ dg_rights dg = None
        \/ 0 <= 0 /\ 0 <= 1 /\ 0 <= 2 /\ dg_rights dg = Some (0, 1, 2))
  | Aborted => 0 <= 0 /\ (1 < 0 \/ 2 < 0)
  | Undef => False
  end.
Proof.
  apply (vnode_sendmsg_rights full_send 3 (cmdreq_buf 0 1 2)
           (msg (cmdreq_buf 0 1 2))).
  reflexivity.
Defined.

(** C2, counterexample: with [infd = -1] the descriptors 5 and 6 given for
    [outfd] and [errfd] are not sent; with [infd = 4] and [outfd = -1] the
    assertion fails and nothing is sent. *)
Lemma vnode_sendmsg_fds_not_independent :
  (exists n dg, vnode_sendmsg full_send 3 (cmdreq_buf (-1) 5 6) = Done (n, dg)
                /\ dg_rights dg = None)
  /\ vnode_sendmsg full_send 3 (cmdreq_buf 4 (-1) 6) = Aborted.
Proof.
  split; [|reflexivity]. eexists _, _. split; reflexivity.
Qed.

Lemma vnode_sendmsg_wire sendmsg fd type tlvs junk i o e :
  Z.of_nat (length (payload tlvs)) < 4294967296 ->
  i < 0 \/ 0 <= i /\ 0 <= o /\ 0 <= e ->
  let mb := {| msg := wire_msg type tlvs ++ junk;
               infd := i; outfd := o; errfd := e |} in
  let dg := {| dg_bytes := wire_msg type tlvs; dg_rights := rights_of mb |} in
  vnode_sendmsg sendmsg fd mb = Done (sendmsg fd dg, dg).
Proof.
  intros Hlen Hfds mb dg.
  pose proof (vnode_sendmsg_rights sendmsg fd mb (wire_msg type tlvs)) as H.
  assert (Hiov : (vnode_msglen mb ≫= load_bytes (msg mb) 0)
                 = Some (wire_msg type tlvs)).
  { unfold vnode_msglen. subst mb. cbn [msg].
    rewrite hdr_datalen_wire by done. cbn [mbind option_bind].
    apply load_bytes_prefix. by rewrite wire_msg_length. }
  specialize (H Hiov).
  destruct (vnode_sendmsg sendmsg fd mb) as [[n d]| |].
  - destruct H as (-> & Hb & Hr). f_equal.
    assert (d = dg) as ->; [|done].
    destruct d as [b r]. simpl in *. subst dg. f_equal; [done|].
    unfold rights_of. subst mb. cbn [infd outfd errfd] in *.
    destruct Hr as [[Hi ->]|(Hi & _ & _ & ->)]; zbool.
  - subst mb. cbn [infd outfd errfd] in *. lia.
  - done.
Qed.

Lemma send_msg_wire heap fresh sendmsg fd type tlvs fds :
  heap VNODE_MSGSIZMAX = Some fresh ->
  Forall tlv_wf tlvs ->
  sizeof_hdr + Z.of_nat (length (payload tlvs)) <= VNODE_MSGSIZMAX ->
  match fds with
  | Some (i, o, e) => i < 0 \/ 0 <= i /\ 0 <= o /\ 0 <= e
  | None => True
  end ->
  let dg := {| dg_bytes := wire_msg type tlvs;
               dg_rights := match fds with
                            | Some (i, o, e) =>
                              if 0 <=? i then Some (i, o, e) else None
                            | None => None
                            end |} in
  send_msg heap sendmsg fd type (map tlv_args tlvs) fds
  = Done (if sendmsg fd dg =? Z.of_nat (length (wire_msg type tlvs))
          then 0 else -1, [(fd, dg)]).
Proof.
  intros Hheap Hwf Hfit Hfds dg. unfold send_msg.
  destruct (build_msg_wire heap fresh type tlvs fds Hheap Hwf Hfit)
    as (junk & -> & _).
  cbn [mbind outcome_bind].
  assert (Hlen : Z.of_nat (length (payload tlvs)) < 4294967296)
    by (unfold VNODE_MSGSIZMAX, sizeof_hdr in *; lia).
  rewrite vnode_sendmsg_wire; [|done|by destruct fds as [[[??]?]|]; [|left]].
  cbn [mbind outcome_bind]. unfold vnode_msglen. cbn [msg].
  rewrite hdr_datalen_wire by done.
  cbn [mbind option_bind of_option outcome_bind].
  rewrite wire_msg_length. unfold rights_of. cbn [infd outfd errfd].
  subst dg. by destruct fds as [[[??]?]|].
Qed.

(** ** Lists of commands, 32-bit values, TLV types outside the table *)

Lemma tailq_find_Some {A} (P : A -> bool) l i x :
  tailq_find P l = Some (i, x) -> l !! i = Some x /\ P x = true.
Proof.
  revert i. induction l as [|y l IH]; intros i; simpl; [done|].
  destruct (P y) eqn:Ey.
  - intros [= <- <-]. done.
  - destruct (tailq_find P l) as [[j z]|]; [|done].
    intros [= <- <-]. by apply IH.
Qed.

Lemma tailq_find_None {A} (P : A -> bool) l :
  tailq_find P l = None <-> forall x, x ∈ l -> P x = false.
Proof.
  induction l as [|y l IH]; simpl.
  - split; [|done]. intros _ x Hx. by apply elem_of_nil in Hx.
  - destruct (P y) eqn:Ey.
    + split; [done|]. intros H. rewrite H in Ey; [done|]. by left.
    + destruct (tailq_find P l) as [[j z]|].
      * split; [done|]. intros H.
        assert (Some (j, z) = None) as Hc; [|done].
        apply IH. intros x Hx. apply H. by right.
      * split; [|done]. intros _ x Hx.
        apply elem_of_cons in Hx as [->|Hx]; [done|]. by apply IH.
Qed.

Lemma tlv_int32_of_int32 type x :
  int32_range x -> tlv_int32 (tlv_of_int32 type x) = Done (0, Some x).
Proof.
  intros Hx. unfold tlv_int32, tlv_of_int32. cbn [tlv_vallen tlv_val].
  cbn [Z.eqb negb Pos.eqb].
  pose proof (load_u32_app [] x [] 0 eq_refl) as E.
  rewrite app_nil_r in E. cbn [app] in E. rewrite E.
  cbn [of_option mbind outcome_bind]. by rewrite int32_of_u32_wrap.
Qed.

Lemma tlv_of_int32_wf type x :
  0 <= type < VNODE_TLV_MAX -> tlv_wf (tlv_of_int32 type x).
Proof. intros H. unfold tlv_wf. simpl. lia. Qed.

(** A TLV that lies within the payload and whose type is not below
    [VNODE_TLV_MAX] makes the walk index the handler array outside its
    bounds. *)
Lemma parse_loop_type_outside_table {D} n m (tbl : tlvtable D) datalen offset
    tmp data type vallen :
  offset < datalen ->
  load_u32 m (sizeof_hdr + offset) = Some type ->
  load_u32 m (sizeof_hdr + offset + 4) = Some vallen ->
  vallen <> 0 ->
  offset + sizeof_tlv + vallen <= datalen ->
  VNODE_TLV_MAX <= type ->
  parse_loop (S n) m tbl datalen offset tmp data = Undef.
Proof.
  intros Hlt Hty Hvl Hnz Hfit Hmax. cbn [parse_loop].
  rewrite Hty, Hvl. cbn [of_option mbind outcome_bind].
  replace (offset <? datalen) with true by (symmetry; apply Z.ltb_lt; lia).
  replace (vallen =? 0) with false by (symmetry; apply Z.eqb_neq; lia).
  replace (offset + sizeof_tlv + vallen >? datalen) with false
    by (symmetry; rewrite Z.gtb_ltb; apply Z.ltb_ge; lia).
  replace (type <? VNODE_TLV_MAX) with false
    by (symmetry; apply Z.ltb_ge; lia).
  reflexivity.
Qed.

(** C4, failing input. The claim lets every TLV whose type has no handler be
    skipped. A received payload may carry any 32-bit type, and
    [vnode_parsemsg] indexes the [VNODE_TLV_MAX]-slot handler array with it
    unchecked: on the frame that carries one TLV of type [VNODE_TLV_MAX] the
    array is read past its end, whatever the handler table and whatever
    follows the frame in the buffer. *)
Theorem vnode_parsemsg_type_outside_table {D} (data : D) (tbl : tlvtable D)
    junk :
  vnode_parsemsg (stray_msg ++ junk) data tbl = Undef.
Proof.
  unfold vnode_parsemsg, stray_msg.
  rewrite hdr_datalen_wire by (vm_compute; reflexivity).
  cbn [of_option mbind outcome_bind].
  change (Z.of_nat (length (payload [stray_tlv]))) with 12.
  change (Z.to_nat 12) with (S 11).
  apply (parse_loop_type_outside_table _ _ _ _ _ _ _ VNODE_TLV_MAX 4).
  - lia.
  - unfold wire_msg. rewrite <- !app_assoc.
    apply (load_u32_app (le32_encode VNODE_MSG_CMDSIGNAL ++ le32_encode 12)
             VNODE_TLV_MAX). reflexivity.
  - unfold wire_msg. rewrite <- !app_assoc.
    apply (load_u32_app ((le32_encode VNODE_MSG_CMDSIGNAL ++ le32_encode 12)
                         ++ le32_encode VNODE_TLV_MAX) 4). reflexivity.
  - lia.
  - unfold sizeof_tlv. lia.
  - lia.
Qed.

(** ** Signals go to the owner's commands *)

Module ServerFacts.
Import Server.

Lemma tlv_cmdsignal_cmdid_int32 x s :
  int32_range x ->
  tlv_cmdsignal_cmdid (tlv_of_int32 VNODE_TLV_CMDID x) s
  = Done (0, {| sig_cmdid := x; signum := signum s |}).
Proof.
  intros Hx. unfold tlv_cmdsignal_cmdid.
  rewrite tlv_int32_of_int32 by done. reflexivity.
Qed.

Lemma tlv_cmdsignal_signum_int32 x s :
  int32_range x ->
  tlv_cmdsignal_signum (tlv_of_int32 VNODE_TLV_SIGNUM x) s
  = Done (0, {| sig_cmdid := sig_cmdid s; signum := x |}).
Proof.
  intros Hx. unfold tlv_cmdsignal_signum.
  rewrite tlv_int32_of_int32 by done. reflexivity.
Qed.

Lemma parse_cmdsignal id sig junk :
  int32_range id -> int32_range sig ->
  vnode_parsemsg (cmdsignal_msg id sig ++ junk) CMDSIGNAL_INIT
    cmdsignal_tlvhandler
  = Done (0, {| sig_cmdid := id; signum := sig |}).
Proof.
  intros Hid Hsig. unfold cmdsignal_msg. rewrite parsemsg_wire.
  - cbn [dispatch].
    change (cmdsignal_tlvhandler (tlv_type (tlv_of_int32 VNODE_TLV_CMDID id)))
      with (Some tlv_cmdsignal_cmdid).
    change (cmdsignal_tlvhandler (tlv_type (tlv_of_int32 VNODE_TLV_SIGNUM sig)))
      with (Some tlv_cmdsignal_signum).
    cbv iota. rewrite tlv_cmdsignal_cmdid_int32 by done.
    cbn [mbind outcome_bind Z.eqb negb].
    rewrite tlv_cmdsignal_signum_int32 by done. reflexivity.
  - repeat constructor; apply tlv_of_int32_wf;
      unfold VNODE_TLV_CMDID, VNODE_TLV_SIGNUM, VNODE_TLV_MAX; lia.
  - vm_compute. done.
Qed.

(** C6. For every server state and every [CMDSIGNAL{cmdid, signum}]
    received from a connected client, the command table is left as it was
    and every system call made is a [kill] with [signum] of the pid of an
    entry whose [cmdid] is the requested one and whose owner is that client;
    when every entry with that [cmdid] belongs to another client nothing is
    signalled; when the client owns such an entry, exactly one signal is
    sent. *)
Theorem vnode_recv_cmdsignal_owner server client mb id sig junk :
  msg mb = cmdsignal_msg id sig ++ junk ->
  int32_range id -> int32_range sig ->
  exists evs,
    vnode_recv_cmdsignal server client mb = Done (server, evs)
    /\ (forall ev, ev ∈ evs ->
          exists cmd, cmd ∈ cmdlisthead server
                      /\ cmdid cmd = id /\ data cmd = client_ref client
                      /\ ev = SysKill (pid cmd) sig)
    /\ ((forall cmd, cmd ∈ cmdlisthead server -> cmdid cmd = id ->
           data cmd <> client_ref client) -> evs = [])
    /\ ((exists cmd, cmd ∈ cmdlisthead server /\ cmdid cmd = id
                     /\ data cmd = client_ref client) -> length evs = 1%nat).
Proof.
  intros Hm Hid Hsig. unfold vnode_recv_cmdsignal. rewrite Hm.
  assert (Hty : hdr_type (cmdsignal_msg id sig ++ junk)
                = Some VNODE_MSG_CMDSIGNAL)
    by (unfold cmdsignal_msg; by rewrite hdr_type_wire).
  rewrite Hty. cbn [of_option mbind outcome_bind].
  change (negb (_ =? VNODE_MSG_CMDSIGNAL)) with false. cbn iota.
  rewrite parse_cmdsignal by done. cbn [mbind outcome_bind Z.eqb negb].
  set (P := signal_target client {| sig_cmdid := id; signum := sig |}).
  assert (HP : forall cmd, P cmd = true <->
                 cmdid cmd = id /\ data cmd = client_ref client).
  { intros cmd. subst P. unfold signal_target. cbn [sig_cmdid].
    rewrite andb_true_iff, !Z.eqb_eq. done. }
  destruct (tailq_find P (cmdlisthead server)) as [[i cmd]|] eqn:E.
  - apply tailq_find_Some in E as [Hi Hc]. apply HP in Hc as [Hc1 Hc2].
    assert (Hin : cmd ∈ cmdlisthead server)
      by (eapply list_elem_of_lookup_2; done).
    eexists. split; [done|]. split_and!.
    + intros ev Hev. apply list_elem_of_singleton in Hev as ->.
      exists cmd. done.
    + intros Hno. exfalso. by apply (Hno cmd).
    + done.
  - eexists. split; [done|]. split_and!; [|done|].
    + intros ev Hev. by apply elem_of_nil in Hev.
    + intros (cmd & Hin & Hc1 & Hc2).
      rewrite tailq_find_None in E. specialize (E cmd Hin).
      assert (P cmd = true) as Ht by (by apply HP). congruence.
Qed.

End ServerFacts.

(** ** The argument array of the server *)

Module CmdreqFacts.
Import Server.

Lemma strlen_le s : (strlen s <= length s)%nat.
Proof.
  induction s as [|b s IH]; simpl; [lia|]. destruct (Byte.eqb b x00); lia.
Qed.

Lemma cmdarg_val_length s : length (cmdarg_val s) = S (strlen s).
Proof.
  unfold cmdarg_val. pose proof (strlen_le s).
  rewrite length_app, length_take. simpl. lia.
Qed.

Lemma tlv_of_string_wf type s :
  0 <= type < VNODE_TLV_MAX -> Z.of_nat (strlen s) + 1 < 4294967296 ->
  tlv_wf (tlv_of_string type s).
Proof.
  intros Hty Hlen. unfold tlv_wf, tlv_of_string. cbn [tlv_type tlv_vallen tlv_val].
  fold (cmdarg_val s). rewrite cmdarg_val_length. lia.
Qed.

Lemma tlv_string_of_string type s :
  Z.of_nat (strlen s) + 1 < 4294967296 ->
  tlv_string (tlv_of_string type s) = Done (0, Some (cmdarg_val s)).
Proof.
  intros Hlen. unfold tlv_string, tlv_of_string. cbn [tlv_vallen tlv_val].
  fold (cmdarg_val s).
  replace ((Z.of_nat (strlen s) + 1 - 1) mod 4294967296)
    with (Z.of_nat (strlen s)) by (rewrite Z.mod_small; lia).
  unfold zlookup. rewrite cmdarg_val_length. zbool.
  rewrite Nat2Z.id. unfold cmdarg_val.
  pose proof (strlen_le s).
  rewrite lookup_app_r by (rewrite length_take; lia).
  rewrite length_take.
  replace (strlen s - strlen s `min` length s)%nat with 0%nat by lia.
  reflexivity.
Qed.

Lemma first_null_filled {A} (vals : list A) rest :
  first_null (map Some vals ++ rest) = (length vals + first_null rest)%nat.
Proof. induction vals as [|v vals IH]; simpl; [done|]. by rewrite IH. Qed.

Lemma first_null_replicate {A} n : first_null (replicate n (@None A)) = 0%nat.
Proof. by destruct n. Qed.

Lemma first_null_cmdarg_filled vals :
  first_null (cmdarg_filled vals) = length vals.
Proof.
  unfold cmdarg_filled. rewrite first_null_filled, first_null_replicate. lia.
Qed.

Lemma cmdarg_filled_insert vals v :
  Z.of_nat (length vals) < VNODE_ARGMAX ->
  <[length vals := Some v]> (cmdarg_filled vals) = cmdarg_filled (vals ++ [v]).
Proof.
  intros H. unfold cmdarg_filled.
  rewrite length_app. cbn [length].
  destruct (Z.to_nat VNODE_ARGMAX - length vals)%nat as [|n] eqn:E; [lia|].
  replace (Z.to_nat VNODE_ARGMAX - (length vals + 1))%nat with n by lia.
  rewrite map_app, <- app_assoc. cbn [map app replicate].
  rewrite insert_app_r_alt by (rewrite length_map; lia).
  rewrite length_map, Nat.sub_diag. reflexivity.
Qed.

Lemma tlv_cmdreq_cmdid_int32 x req :
  int32_range x ->
  tlv_cmdreq_cmdid (tlv_of_int32 VNODE_TLV_CMDID x) req
  = Done (0, {| req_cmdid := x; cmdio := cmdio req; cmdarg := cmdarg req |}).
Proof.
  intros Hx. unfold tlv_cmdreq_cmdid.
  rewrite tlv_int32_of_int32 by done. reflexivity.
Qed.

(** One CMDARG TLV: stored in the first free slot while there is one,
    an error once the [VNODE_ARGMAX] slots are taken. *)
Lemma tlv_cmdreq_cmdarg_string s id io vals :
  Z.of_nat (strlen s) + 1 < 4294967296 ->
  tlv_cmdreq_cmdarg (tlv_of_string VNODE_TLV_CMDARG s)
    {| req_cmdid := id; cmdio := io; cmdarg := cmdarg_filled vals |}
  = if Z.of_nat (length vals) <? VNODE_ARGMAX
    then Done (0, {| req_cmdid := id; cmdio := io;
                     cmdarg := cmdarg_filled (vals ++ [cmdarg_val s]) |})
    else if Z.of_nat (length vals) =? VNODE_ARGMAX
    then Done (-1, {| req_cmdid := id; cmdio := io;
                      cmdarg := cmdarg_filled vals |})
    else Done (0, {| req_cmdid := id; cmdio := io;
                     cmdarg := <[length vals := Some (cmdarg_val s)]>
                                 (cmdarg_filled vals) |}).
Proof.
  intros Hs. unfold tlv_cmdreq_cmdarg. cbn [cmdarg req_cmdid cmdio].
  change (negb (tlv_type _ =? VNODE_TLV_CMDARG)) with false. cbv iota.
  rewrite first_null_cmdarg_filled.
  destruct (Z.ltb_spec (Z.of_nat (length vals)) VNODE_ARGMAX) as [Hlt|Hge].
  - replace (Z.of_nat (length vals) =? VNODE_ARGMAX) with false
      by (symmetry; apply Z.eqb_neq; lia).
    rewrite tlv_string_of_string by done.
    cbn [mbind outcome_bind]. by rewrite cmdarg_filled_insert.
  - destruct (Z.eqb_spec (Z.of_nat (length vals)) VNODE_ARGMAX); [done|].
    rewrite tlv_string_of_string by done. reflexivity.
Qed.

Lemma dispatch_cmdargs args :
  forall tmp id io vals,
  Forall (fun s => Z.of_nat (strlen s) + 1 < 4294967296) args ->
  Z.of_nat (length vals + length args) <= VNODE_ARGMAX ->
  dispatch cmdreq_tlvhandler (map (tlv_of_string VNODE_TLV_CMDARG) args) tmp
    {| req_cmdid := id; cmdio := io; cmdarg := cmdarg_filled vals |}
  = Done (match args with [] => tmp | _ => 0 end,
          {| req_cmdid := id; cmdio := io;
             cmdarg := cmdarg_filled (vals ++ map cmdarg_val args) |}).
Proof.
  induction args as [|s args IH]; intros tmp id io vals Hs Hn.
  - simpl. by rewrite app_nil_r.
  - apply Forall_cons in Hs as [Hs Hss]. cbn [map dispatch length] in *.
    change (cmdreq_tlvhandler (tlv_type (tlv_of_string VNODE_TLV_CMDARG s)))
      with (Some tlv_cmdreq_cmdarg).
    cbv iota. rewrite tlv_cmdreq_cmdarg_string by done.
    replace (Z.of_nat (length vals) <? VNODE_ARGMAX) with true
      by (symmetry; apply Z.ltb_lt; lia).
    cbn [mbind outcome_bind Z.eqb negb].
    rewrite IH; [|done|rewrite length_app; simpl; lia].
    rewrite <- app_assoc. simpl. by destruct args.
Qed.

(** The TLV after the [VNODE_ARGMAX]-th CMDARG is the first to be refused. *)
Lemma dispatch_cmdargs_over args s rest :
  forall tmp id io,
  Forall (fun s => Z.of_nat (strlen s) + 1 < 4294967296) (args ++ [s]) ->
  Z.of_nat (length args) = VNODE_ARGMAX ->
  exists req,
    dispatch cmdreq_tlvhandler
      (map (tlv_of_string VNODE_TLV_CMDARG) (args ++ s :: rest)) tmp
      {| req_cmdid := id; cmdio := io; cmdarg := cmdarg_filled [] |}
    = Done (-1, req).
Proof.
  intros tmp id io Hs Hn.
  apply Forall_app in Hs as [Hargs Hs]. apply Forall_cons in Hs as [Hs _].
  revert tmp.
  assert (G : forall args' vals tmp,
    Forall (fun s => Z.of_nat (strlen s) + 1 < 4294967296) args' ->
    Z.of_nat (length vals + length args') = VNODE_ARGMAX ->
    exists req,
      dispatch cmdreq_tlvhandler
        (map (tlv_of_string VNODE_TLV_CMDARG) (args' ++ s :: rest)) tmp
        {| req_cmdid := id; cmdio := io; cmdarg := cmdarg_filled vals |}
      = Done (-1, req)).
  { induction args' as [|a args' IH]; intros vals tmp Ha Hl.
    - cbn [app map dispatch length] in *.
      change (cmdreq_tlvhandler (tlv_type (tlv_of_string VNODE_TLV_CMDARG s)))
        with (Some tlv_cmdreq_cmdarg).
      cbv iota. rewrite tlv_cmdreq_cmdarg_string by done.
      replace (Z.of_nat (length vals) <? VNODE_ARGMAX) with false
        by (symmetry; apply Z.ltb_ge; lia).
      replace (Z.of_nat (length vals) =? VNODE_ARGMAX) with true
        by (symmetry; apply Z.eqb_eq; lia).
      eexists. reflexivity.
    - apply Forall_cons in Ha as [Ha Has].
      cbn [app map dispatch length] in *.
      change (cmdreq_tlvhandler (tlv_type (tlv_of_string VNODE_TLV_CMDARG a)))
        with (Some tlv_cmdreq_cmdarg).
      cbv iota. rewrite tlv_cmdreq_cmdarg_string by done.
      replace (Z.of_nat (length vals) <? VNODE_ARGMAX) with true
        by (symmetry; apply Z.ltb_lt; lia).
      cbn [mbind outcome_bind Z.eqb negb].
      apply IH; [done|]. rewrite length_app. simpl. lia. }
  intros tmp. apply G; [done|]. simpl. lia.
Qed.

Lemma argv_strings_all_Some vals : argv_strings (map Some vals) = None.
Proof. induction vals as [|v vals IH]; simpl; [done|]. by rewrite IH. Qed.

Lemma cmdarg_filled_full vals :
  Z.of_nat (length vals) = VNODE_ARGMAX -> cmdarg_filled vals = map Some vals.
Proof.
  intros H. unfold cmdarg_filled.
  replace (Z.to_nat VNODE_ARGMAX - length vals)%nat with 0%nat by lia.
  simpl. by rewrite app_nil_r.
Qed.

Lemma CMDREQ_INIT_filled :
  CMDREQ_INIT = {| req_cmdid := 0; cmdio := (0, 0, 0);
                   cmdarg := cmdarg_filled [] |}.
Proof. reflexivity. Qed.

End CmdreqFacts.

(** ** Spawning on a CMDREQ *)

Module SpawnFacts.
Import Server CmdreqFacts.

Lemma payload_strings_bound type args :
  forall N,
  Z.of_nat (length (payload (map (tlv_of_string type) args))) <= N ->
  Forall (fun s => Z.of_nat (strlen s) + 9 <= N) args.
Proof.
  induction args as [|s args IH]; intros N HN; [constructor|].
  cbn [map] in HN. rewrite payload_cons, length_app in HN.
  pose proof (tlv_bytes_length (tlv_of_string type s)) as Hb.
  cbn [tlv_of_string tlv_val] in Hb. fold (cmdarg_val s) in Hb.
  rewrite cmdarg_val_length in Hb.
  constructor; [lia|]. apply IH. lia.
Qed.

Lemma cmdreq_msg_strings id args :
  Z.of_nat (length (cmdreq_msg id args)) <= VNODE_MSGSIZMAX ->
  Forall (fun s => Z.of_nat (strlen s) + 1 < 4294967296) args
  /\ Z.of_nat (length (payload (tlv_of_int32 VNODE_TLV_CMDID id
        :: map (tlv_of_string VNODE_TLV_CMDARG) args))) <= 65527.
Proof.
  unfold cmdreq_msg. rewrite wire_msg_length.
  unfold sizeof_hdr, VNODE_MSGSIZMAX. intros H. split; [|lia].
  rewrite payload_cons, length_app in H.
  eapply Forall_impl;
    [apply (payload_strings_bound VNODE_TLV_CMDARG args 65535); lia|].
  simpl. intros. lia.
Qed.

Lemma cmdreq_tlvs_wf id args :
  Forall (fun s => Z.of_nat (strlen s) + 1 < 4294967296) args ->
  Forall tlv_wf (tlv_of_int32 VNODE_TLV_CMDID id
                 :: map (tlv_of_string VNODE_TLV_CMDARG) args).
Proof.
  intros H. constructor.
  - apply tlv_of_int32_wf. unfold VNODE_TLV_CMDID, VNODE_TLV_MAX. lia.
  - apply Forall_map. eapply Forall_impl; [exact H|].
    intros s Hs. apply tlv_of_string_wf; [|done].
    unfold VNODE_TLV_CMDARG, VNODE_TLV_MAX. lia.
Qed.

Lemma parse_cmdreq id args junk :
  int32_range id ->
  Z.of_nat (length (cmdreq_msg id args)) <= VNODE_MSGSIZMAX ->
  vnode_parsemsg (cmdreq_msg id args ++ junk) CMDREQ_INIT cmdreq_tlvhandler
  = dispatch cmdreq_tlvhandler (map (tlv_of_string VNODE_TLV_CMDARG) args) 0
      {| req_cmdid := id; cmdio := (0, 0, 0); cmdarg := cmdarg_filled [] |}.
Proof.
  intros Hid Hfit. destruct (cmdreq_msg_strings id args Hfit) as [Hs Hp].
  unfold cmdreq_msg. rewrite parsemsg_wire; [|by apply cmdreq_tlvs_wf|lia].
  cbn [dispatch].
  change (cmdreq_tlvhandler (tlv_type (tlv_of_int32 VNODE_TLV_CMDID id)))
    with (Some tlv_cmdreq_cmdid).
  cbv iota. rewrite tlv_cmdreq_cmdid_int32 by done. reflexivity.
Qed.

Lemma hdr_type_cmdreq id args junk :
  hdr_type (cmdreq_msg id args ++ junk) = Some VNODE_MSG_CMDREQ.
Proof. unfold cmdreq_msg. by rewrite hdr_type_wire. Qed.

(** Up to [VNODE_ARGMAX] arguments: the request is processed. *)
Lemma vnode_recv_cmdreq_accepts e server client mb id args junk :
  msg mb = cmdreq_msg id args ++ junk ->
  int32_range id ->
  Z.of_nat (length (cmdreq_msg id args)) <= VNODE_MSGSIZMAX ->
  Z.of_nat (length args) <= VNODE_ARGMAX ->
  vnode_recv_cmdreq e server client mb
  = vnode_process_cmdreq e server client
      (cmdreq_of mb id (cmdarg_filled (map cmdarg_val args))).
Proof.
  intros Hm Hid Hfit Hn. unfold vnode_recv_cmdreq.
  rewrite Hm, hdr_type_cmdreq. cbn [of_option mbind outcome_bind].
  change (negb (VNODE_MSG_CMDREQ =? VNODE_MSG_CMDREQ)) with false. cbv iota.
  rewrite parse_cmdreq by done.
  destruct (cmdreq_msg_strings id args Hfit) as [Hs _].
  rewrite dispatch_cmdargs; [|done|simpl; lia].
  cbn [mbind outcome_bind app]. destruct args; reflexivity.
Qed.

(** More than [VNODE_ARGMAX] arguments: the request is dropped. *)
Lemma vnode_recv_cmdreq_over_argmax e server client mb id args junk :
  msg mb = cmdreq_msg id args ++ junk ->
  int32_range id ->
  Z.of_nat (length (cmdreq_msg id args)) <= VNODE_MSGSIZMAX ->
  VNODE_ARGMAX < Z.of_nat (length args) ->
  vnode_recv_cmdreq e server client mb = Done (server, []).
Proof.
  intros Hm Hid Hfit Hn. unfold vnode_recv_cmdreq.
  rewrite Hm, hdr_type_cmdreq. cbn [of_option mbind outcome_bind].
  change (negb (VNODE_MSG_CMDREQ =? VNODE_MSG_CMDREQ)) with false. cbv iota.
  rewrite parse_cmdreq by done.
  destruct (cmdreq_msg_strings id args Hfit) as [Hs _].
  rewrite <- (take_drop (Z.to_nat VNODE_ARGMAX) args) in Hs |- *.
  destruct (drop (Z.to_nat VNODE_ARGMAX) args) as [|s rest] eqn:Ed.
  { apply (f_equal length) in Ed. rewrite length_drop in Ed.
    cbn [length] in Ed. unfold VNODE_ARGMAX in *. lia. }
  destruct (dispatch_cmdargs_over (take (Z.to_nat VNODE_ARGMAX) args) s rest
              0 id (0, 0, 0)) as [req Hreq].
  - apply Forall_app in Hs as [Hs1 Hs2]. apply Forall_cons in Hs2 as [Hs2 _].
    apply Forall_app. split; [done|]. by constructor.
  - rewrite length_take. unfold VNODE_ARGMAX in *. lia.
  - rewrite Hreq. reflexivity.
Qed.

Lemma vnode_send_cmdreqack_done heap sendmsg fd id p :
  exists r sent, vnode_send_cmdreqack heap sendmsg fd id p = Done (r, sent).
Proof.
  unfold vnode_send_cmdreqack.
  change [int32_tlv VNODE_TLV_CMDID id; int32_tlv VNODE_TLV_CMDPID p]
    with (map tlv_args [tlv_of_int32 VNODE_TLV_CMDID id;
                        tlv_of_int32 VNODE_TLV_CMDPID p]).
  destruct (heap VNODE_MSGSIZMAX) as [fresh|] eqn:Eh.
  - assert (Hwf : Forall tlv_wf [tlv_of_int32 VNODE_TLV_CMDID id;
                                 tlv_of_int32 VNODE_TLV_CMDPID p]).
    { repeat constructor; apply tlv_of_int32_wf;
        unfold VNODE_TLV_CMDID, VNODE_TLV_CMDPID, VNODE_TLV_MAX; lia. }
    rewrite (send_msg_wire heap fresh _ _ _ _ None Eh Hwf);
      [by eexists _, _| |done].
    vm_compute. discriminate.
  - unfold send_msg, build_msg, vnode_initmsgbuf, vnode_resizemsgbuf.
    rewrite Eh. by eexists _, _.
Qed.

(** Once the entry is allocated, [vnode_process_cmdreq] forks, whatever the
    request holds. *)
Lemma vnode_process_cmdreq_forks e server client req :
  malloc_cmd e = true ->
  exists server' evs,
    vnode_process_cmdreq e server client req
    = Done (server', SysFork req (fork_ret e) :: evs).
Proof.
  intros Hm. unfold vnode_process_cmdreq, forkexec. rewrite Hm.
  cbn [negb]. destruct (cmdio req) as [[i o] err]. cbn [cmdid pid].
  destruct (vnode_send_cmdreqack_done (heap e) (sendmsg e) (clientfd client)
              (req_cmdid req) (fork_ret e)) as (r & sent & ->).
  cbn [mbind outcome_bind].
  destruct (negb (r =? 0)); [by eexists _, _|].
  destruct (fork_ret e =? -1); by eexists _, _.
Qed.

(** The acknowledgement as it goes out: one datagram, no descriptors. *)
Lemma vnode_send_cmdreqack_wire heap fresh sendmsg fd id p :
  heap VNODE_MSGSIZMAX = Some fresh ->
  let ack := {| dg_bytes := cmdreqack_msg id p; dg_rights := None |} in
  vnode_send_cmdreqack heap sendmsg fd id p
  = Done (if sendmsg fd ack =? Z.of_nat (length (cmdreqack_msg id p))
          then 0 else -1,
          [(fd, ack)]).
Proof.
  intros Hh ack. unfold vnode_send_cmdreqack, cmdreqack_msg.
  change [int32_tlv VNODE_TLV_CMDID id; int32_tlv VNODE_TLV_CMDPID p]
    with (map tlv_args [tlv_of_int32 VNODE_TLV_CMDID id;
                        tlv_of_int32 VNODE_TLV_CMDPID p]).
  rewrite (send_msg_wire heap fresh _ _ _ _ None Hh); [done| | |done].
  - repeat constructor; apply tlv_of_int32_wf;
      unfold VNODE_TLV_CMDID, VNODE_TLV_CMDPID, VNODE_TLV_MAX; lia.
  - vm_compute. discriminate.
Qed.

(** When [fork] gave a child and the acknowledgement went out whole,
    [vnode_process_cmdreq] has forked, closed the descriptors of the
    request, acknowledged, and appended the command to the table. *)
Lemma vnode_process_cmdreq_records e fresh server client req :
  malloc_cmd e = true ->
  heap e VNODE_MSGSIZMAX = Some fresh ->
  let child := fork_ret e in
  let ack := {| dg_bytes := cmdreqack_msg (req_cmdid req) child;
                dg_rights := None |} in
  child <> -1 ->
  sendmsg e (clientfd client) ack = Z.of_nat (length (dg_bytes ack)) ->
  vnode_process_cmdreq e server client req
  = Done ({| cmdlisthead :=
               cmdlisthead server
               ++ [ {| cmdid := req_cmdid req; pid := child; status := -1;
                       data := client_ref client |} ] |},
          SysFork req child
          :: CLOSE (cmdio req).1.1 ++ CLOSE (cmdio req).1.2
             ++ CLOSE (cmdio req).2
             ++ [SysSend (clientfd client) ack]).
Proof.
  intros Hm Hh child ack Hchild Hsent.
  unfold vnode_process_cmdreq, forkexec. rewrite Hm. cbn [negb].
  destruct (cmdio req) as [[i o] err]. cbn [cmdid pid fst snd].
  rewrite (vnode_send_cmdreqack_wire (heap e) fresh) by done.
  fold child. fold ack. cbn [dg_bytes ack] in Hsent. rewrite Hsent, Z.eqb_refl.
  cbn [mbind outcome_bind negb Z.eqb sends map].
  destruct (Z.eqb_spec child (-1)); [done|].
  cbn [app]. by rewrite <- !app_assoc.
Qed.

(** C1, failing input. A CMDREQ carrying exactly [VNODE_ARGMAX] CMDARG TLVs
    is not refused by the server: all [VNODE_ARGMAX] slots of [cmdarg] are
    filled, [vnode_recv_cmdreq] goes on to fork, and the child calls
    [execvp] on an argument array without its terminating NULL. (The client
    refuses [argc >= VNODE_ARGMAX], see [vnode_client_cmdreq_argmax]; the
    server refuses from the next CMDARG on, see
    [vnode_recv_cmdreq_over_argmax].) *)
Theorem vnode_recv_cmdreq_argmax_args e server client mb id args junk :
  msg mb = cmdreq_msg id args ++ junk ->
  int32_range id ->
  Z.of_nat (length (cmdreq_msg id args)) <= VNODE_MSGSIZMAX ->
  Z.of_nat (length args) = VNODE_ARGMAX ->
  malloc_cmd e = true ->
  let req := cmdreq_of mb id (map Some (map cmdarg_val args)) in
  (exists server' evs,
     vnode_recv_cmdreq e server client mb
     = Done (server', SysFork req (fork_ret e) :: evs))
  /\ Z.of_nat (first_null (cmdarg req)) = VNODE_ARGMAX
  /\ forkexec_child req = ChildUndef.
Proof.
  intros Hm Hid Hfit Hn Hmalloc req. split_and!.
  - rewrite (vnode_recv_cmdreq_accepts e server client mb id args junk)
      by (done || lia).
    rewrite cmdarg_filled_full by (rewrite length_map; done).
    by apply vnode_process_cmdreq_forks.
  - subst req. cbn [cmdreq_of cmdarg].
    pose proof (first_null_filled (map cmdarg_val args) []) as E.
    rewrite app_nil_r in E. rewrite E, length_map. simpl. lia.
  - subst req. unfold forkexec_child. cbn [cmdreq_of cmdarg].
    rewrite argv_strings_all_Some.
    destruct args as [|a args]; [simpl in Hn; unfold VNODE_ARGMAX in Hn; lia|].
    reflexivity.
Qed.

Lemma vnode_recv_cmdreq_argmax_args_witness :
  let mb := received (cmdreq_msg 0 argmax_args) in
  let req := cmdreq_of mb 0 (map Some (map cmdarg_val argmax_args)) in
  (exists server' evs,
     vnode_recv_cmdreq fair_env no_commands client_one mb
     = Done (server', SysFork req 4242 :: evs))
  /\ Z.of_nat (first_null (cmdarg req)) = VNODE_ARGMAX
  /\ forkexec_child req = ChildUndef.
Proof.
  apply (vnode_recv_cmdreq_argmax_args fair_env no_commands client_one
           (received (cmdreq_msg 0 argmax_args)) 0 argmax_args []).
  - cbn [received msg]. by rewrite app_nil_r.
  - unfold int32_range. lia.
  - vm_compute. discriminate.
  - vm_compute. reflexivity.
  - reflexivity.
Defined.

End SpawnFacts.

(** ** Submitting a command *)

Module CmdreqClientFacts.
Import Client.

(** The client refuses [argc >= VNODE_ARGMAX] before anything else. *)
Lemma vnode_client_cmdreq_argmax e s cb data argc argv :
  VNODE_ARGMAX <= argc ->
  vnode_client_cmdreq e s cb data argc argv = Done (-1, s, []).
Proof.
  intros H. unfold vnode_client_cmdreq.
  replace (argc >=? VNODE_ARGMAX) with true; [done|].
  symmetry. rewrite Z.geb_leb. by apply Z.leb_le.
Qed.

Lemma build_msg_fds heap type tlvs i o e mb :
  build_msg heap type tlvs (Some (i, o, e)) = Done (Some mb) ->
  infd mb = i /\ outfd mb = o /\ errfd mb = e.
Proof.
  unfold build_msg. destruct (vnode_initmsgbuf heap) as [failed mb0].
  destruct (negb (failed =? 0)); [done|].
  destruct (ADDTLV heap mb0 0 tlvs) as [[[mb1 off]|]| |]; try done.
  cbn [mbind outcome_bind].
  destruct (store_u32 _ 0 type) as [m1|]; [|done].
  cbn [of_option mbind outcome_bind].
  destruct (store_u32 m1 4 off) as [m2|]; [|done].
  cbn [of_option mbind outcome_bind]. intros [= <-]. done.
Qed.

Lemma vnode_sendmsg_Done sendmsg fd mb n dg :
  vnode_sendmsg sendmsg fd mb = Done (n, dg) ->
  infd mb < 0 /\ dg_rights dg = None
  \/ 0 <= infd mb /\ 0 <= outfd mb /\ 0 <= errfd mb
     /\ dg_rights dg = Some (infd mb, outfd mb, errfd mb).
Proof.
  unfold vnode_sendmsg. destruct (vnode_msglen mb) as [len|]; [|done].
  cbn [of_option mbind outcome_bind].
  destruct (Z.leb_spec 0 (infd mb)) as [Hi|Hi].
  - destruct (Z.leb_spec 0 (outfd mb)) as [Ho|Ho]; [|done].
    destruct (Z.leb_spec 0 (errfd mb)) as [He|He]; [|done].
    cbn [negb mbind outcome_bind].
    destruct (load_bytes (msg mb) 0 len); [|done].
    cbn [of_option mbind outcome_bind]. intros [= <- <-]. right. done.
  - cbn [mbind outcome_bind].
    destruct (load_bytes (msg mb) 0 len); [|done].
    cbn [of_option mbind outcome_bind]. intros [= <- <-]. left. done.
Qed.

(** What a successful [vnode_send_cmdreq] handed to [sendmsg]. *)
Lemma vnode_send_cmdreq_sent heap sendmsg fd id argv i o e sent :
  vnode_send_cmdreq heap sendmsg fd id argv i o e = Done (0, sent) ->
  exists dg, sent = [(fd, dg)]
    /\ (i < 0 /\ dg_rights dg = None
        \/ 0 <= i /\ 0 <= o /\ 0 <= e /\ dg_rights dg = Some (i, o, e)).
Proof.
  unfold vnode_send_cmdreq.
  destruct (negb (_ =? 0)); [done|].
  destruct (argv_strings argv) as [args|]; [|done].
  cbn [of_option mbind outcome_bind]. unfold send_msg.
  destruct (build_msg _ _ _ _) as [[mb|]| |] eqn:Eb; try done.
  apply build_msg_fds in Eb as (Hi & Ho & He).
  cbn [mbind outcome_bind].
  destruct (vnode_sendmsg sendmsg fd mb) as [[n dg]| |] eqn:Es; try done.
  apply vnode_sendmsg_Done in Es. rewrite Hi, Ho, He in Es.
  cbn [mbind outcome_bind].
  destruct (vnode_msglen mb); [|done]. cbn [of_option mbind outcome_bind].
  intros [= _ <-]. by exists dg.
Qed.

Lemma CLOSE_closed fd open : 0 <= fd -> fd ∉ CLOSE fd open.
Proof.
  intros H. unfold CLOSE, close.
  replace (0 <=? fd) with true by (symmetry; by apply Z.leb_le). set_solver.
Qed.

Lemma CLOSE_subseteq fd open : CLOSE fd open ⊆ open.
Proof. unfold CLOSE, close. destruct (0 <=? fd); set_solver. Qed.

(** C3, as amended. After [vnode_client_cmdreq] returned successfully, one
    datagram went to the server, carrying all three descriptors chosen by
    [vnode_setcmdio] or none. With pipes or a pty every descriptor sent that
    is not negative has been closed in the client; without I/O nothing is
    sent and nothing closed; with caller-supplied descriptors (FD) they are
    sent and left open, with the handle as the caller filled it. *)
Theorem vnode_client_cmdreq_child_fds e s cb data argc argv ret s' sent :
  vnode_client_cmdreq e s cb data argc argv = Done (ret, s', sent) ->
  0 <= ret ->
  exists dg cmdin cmdout cmderr,
    sent = [(serverfd (st_client s), dg)]
    /\ vnode_setcmdio (st_cmdio s) = Some (cmdin, cmdout, cmderr)
    /\ (cmdin < 0 /\ dg_rights dg = None
        \/ 0 <= cmdin /\ 0 <= cmdout /\ 0 <= cmderr
           /\ dg_rights dg = Some (cmdin, cmdout, cmderr))
    /\ match st_cmdio s with
       | VCMD_IO_PIPE _ _ _ _ _ _ | VCMD_IO_PTY _ _ =>
         forall fd, fd ∈ [cmdin; cmdout; cmderr] -> 0 <= fd ->
                    fd ∉ st_open s'
       | VCMD_IO_NONE => dg_rights dg = None /\ st_open s' = st_open s
       | _ => st_open s' = st_open s /\ st_cmdio s' = st_cmdio s
       end.
Proof.
  unfold vnode_client_cmdreq. intros H Hret.
  destruct (argc >=? VNODE_ARGMAX); [injection H as <- _ _; lia|].
  destruct (zlookup argv argc) as [last|]; [|done].
  cbn [of_option mbind outcome_bind] in H.
  destruct last; [injection H as <- _ _; lia|].
  destruct (vnode_setcmdio (st_cmdio s)) as [[[cmdin cmdout] cmderr]|] eqn:Eio;
    [|injection H as <- _ _; lia].
  destruct (negb (malloc_clientcmd e)); [injection H as <- _ _; lia|].
  destruct (negb (malloc_cmd e)); [injection H as <- _ _; lia|].
  destruct (vnode_send_cmdreq _ _ _ _ _ _ _ _) as [[failed sent0]| |] eqn:Es;
    try done.
  cbn [mbind outcome_bind] in H.
  destruct (Z.eqb_spec failed 0) as [->|Hf]; cbn [negb] in H;
    [|injection H as <- _ _; lia].
  apply vnode_send_cmdreq_sent in Es as (dg & -> & Hr).
  destruct (vnode_cleanupcmdio (st_cmdio s) (st_open s)) as [io' open'] eqn:Ec.
  injection H as <- <- <-. cbn [st_open st_cmdio].
  exists dg, cmdin, cmdout, cmderr. split_and!; try done.
  destruct (st_cmdio s) as [|i o er|i0 i1 o0 o1 e0 e1|m sl|ty];
    cbn [vnode_setcmdio vnode_cleanupcmdio] in *.
  - injection Eio as <- <- <-. injection Ec as <- <-.
    split; [|done]. destruct Hr as [[_ ?]|(?&_)]; [done|lia].
  - injection Ec as <- <-. done.
  - injection Eio as <- <- <-. injection Ec as <- <-.
    intros fd Hfd Hpos.
    pose proof (CLOSE_closed fd).
    pose proof (CLOSE_subseteq e1 (CLOSE o1 (CLOSE i0 (st_open s)))).
    pose proof (CLOSE_subseteq o1 (CLOSE i0 (st_open s))).
    set_solver.
  - injection Eio as <- <- <-. injection Ec as <- <-.
    intros fd Hfd Hpos. pose proof (CLOSE_closed fd). set_solver.
  - done.
Qed.

End CmdreqClientFacts.

(** ** What a submitted command sends *)

Module SubmitFacts.
Import Client CmdreqClientFacts.

Lemma cmdreq_tlvs_args id args :
  int32_tlv VNODE_TLV_CMDID id :: map cmdarg_tlv args
  = map tlv_args (tlv_of_int32 VNODE_TLV_CMDID id
                  :: map (tlv_of_string VNODE_TLV_CMDARG) args).
Proof. cbn [map]. rewrite map_map. reflexivity. Qed.

Lemma vnode_send_cmdreq_wire heap fresh sendmsg fd id argv args i o e :
  heap VNODE_MSGSIZMAX = Some fresh ->
  argv_strings argv = Some args ->
  Z.of_nat (length (cmdreq_msg id args)) <= VNODE_MSGSIZMAX ->
  i < 0 \/ 0 <= i /\ 0 <= o /\ 0 <= e ->
  vnode_send_cmdreq heap sendmsg fd id argv i o e
  = Done (if sendmsg fd (cmdreq_dgram id args (i, o, e))
             =? Z.of_nat (length (cmdreq_msg id args)) then 0 else -1,
          [(fd, cmdreq_dgram id args (i, o, e))]).
Proof.
  intros Hheap Hargs Hfit Hfds. unfold vnode_send_cmdreq.
  unfold vnode_initmsgbuf, vnode_resizemsgbuf. rewrite Hheap.
  cbn [fst negb Z.eqb]. rewrite Hargs. cbn [of_option mbind outcome_bind].
  rewrite cmdreq_tlvs_args.
  destruct (SpawnFacts.cmdreq_msg_strings id args Hfit) as [Hs Hp].
  rewrite (send_msg_wire heap fresh); try done.
  - apply SpawnFacts.cmdreq_tlvs_wf. done.
  - unfold sizeof_hdr, VNODE_MSGSIZMAX. lia.
Qed.

(** A request that passes the checks and is sent whole is queued, answered
    with its [cmdid], and the child-side descriptors are cleaned up. *)
Lemma vnode_client_cmdreq_sends e s cb data argc argv args fresh
    cmdin cmdout cmderr :
  argc < VNODE_ARGMAX ->
  zlookup argv argc = Some None ->
  vnode_setcmdio (st_cmdio s) = Some (cmdin, cmdout, cmderr) ->
  malloc_clientcmd e = true -> malloc_cmd e = true ->
  heap e VNODE_MSGSIZMAX = Some fresh ->
  argv_strings argv = Some args ->
  let id := fresh_cmdid (st_client s) in
  let dg := cmdreq_dgram id args (cmdin, cmdout, cmderr) in
  Z.of_nat (length (cmdreq_msg id args)) <= VNODE_MSGSIZMAX ->
  cmdin < 0 \/ 0 <= cmdin /\ 0 <= cmdout /\ 0 <= cmderr ->
  sendmsg e (serverfd (st_client s)) dg
  = Z.of_nat (length (cmdreq_msg id args)) ->
  vnode_client_cmdreq e s cb data argc argv
  = Done (id,
          {| st_client := queued (st_client s) cb data;
             st_cmdio := (vnode_cleanupcmdio (st_cmdio s) (st_open s)).1;
             st_open := (vnode_cleanupcmdio (st_cmdio s) (st_open s)).2 |},
          [(serverfd (st_client s), dg)]).
Proof.
  intros Hargc Hlast Hio Hm1 Hm2 Hheap Hargs id dg Hfit Hfds Hsent.
  unfold vnode_client_cmdreq.
  replace (argc >=? VNODE_ARGMAX) with false
    by (symmetry; rewrite Z.geb_leb; apply Z.leb_gt; lia).
  rewrite Hlast. cbn [of_option mbind outcome_bind].
  rewrite Hio, Hm1, Hm2. cbn [negb].
  fold (fresh_cmdid (st_client s)). fold id.
  rewrite (vnode_send_cmdreq_wire _ fresh _ _ _ _ args) by done.
  fold dg. rewrite Hsent, Z.eqb_refl. cbn [mbind outcome_bind negb Z.eqb].
  destruct (vnode_cleanupcmdio (st_cmdio s) (st_open s)) as [io' open'].
  reflexivity.
Qed.

(** C8, failing input. An empty [argv] is refused neither by the client
    nor by the server. [vnode_client_cmdreq] with [argc = 0] and
    [argv[0] = NULL], when its allocations succeed and the datagram is sent
    whole, queues an entry and returns its [cmdid], having sent a CMDREQ
    whose only TLV is the CMDID. The server, on that request, when [fork]
    gives a child and the acknowledgement is sent whole, forks, closes the
    descriptors that came with the request, acknowledges with the pid of
    the child and records the command. The child has no file to give to
    [execvp]: it calls it with [cmdarg[0]], which is NULL. *)
Theorem empty_argv_is_sent_and_spawned
    e s cb data argv fresh cmdin cmdout cmderr se sfresh server client mb junk :
  let id := fresh_cmdid (st_client s) in
  let dg := cmdreq_dgram id [] (cmdin, cmdout, cmderr) in
  let req := cmdreq_of mb id (cmdarg_filled []) in
  let child := Server.fork_ret se in
  let ack := {| dg_bytes := cmdreqack_msg id child; dg_rights := None |} in
  int32_range (next_cmdid (st_client s)) ->
  vnode_setcmdio (st_cmdio s) = Some (cmdin, cmdout, cmderr) ->
  malloc_clientcmd e = true -> malloc_cmd e = true ->
  heap e VNODE_MSGSIZMAX = Some fresh ->
  cmdin < 0 \/ 0 <= cmdin /\ 0 <= cmdout /\ 0 <= cmderr ->
  sendmsg e (serverfd (st_client s)) dg = Z.of_nat (length (dg_bytes dg)) ->
  msg mb = dg_bytes dg ++ junk ->
  Server.malloc_cmd se = true ->
  Server.heap se VNODE_MSGSIZMAX = Some sfresh ->
  child <> -1 ->
  Server.sendmsg se (Server.clientfd client) ack
  = Z.of_nat (length (dg_bytes ack)) ->
  vnode_client_cmdreq e s cb data 0 (None :: argv)
  = Done (id,
          {| st_client := queued (st_client s) cb data;
             st_cmdio := (vnode_cleanupcmdio (st_cmdio s) (st_open s)).1;
             st_open := (vnode_cleanupcmdio (st_cmdio s) (st_open s)).2 |},
          [(serverfd (st_client s), dg)])
  /\ 0 <= id
  /\ dg_bytes dg = wire_msg VNODE_MSG_CMDREQ [tlv_of_int32 VNODE_TLV_CMDID id]
  /\ Server.vnode_recv_cmdreq se server client mb
     = Done ({| Server.cmdlisthead :=
                  Server.cmdlisthead server
                  ++ [ {| cmdid := id; pid := child; status := -1;
                          data := Server.client_ref client |} ] |},
             Server.SysFork req child
             :: Server.CLOSE (infd mb) ++ Server.CLOSE (outfd mb)
                ++ Server.CLOSE (errfd mb)
                ++ [Server.SysSend (Server.clientfd client) ack])
  /\ Server.forkexec_child req = Server.ChildUndef.
Proof.
  intros id dg req child ack Hrange Hio Hm1 Hm2 Hheap Hfds Hsent Hm Hmalloc
    Hsheap Hchild Hack.
  assert (Hfit : Z.of_nat (length (cmdreq_msg id [])) <= VNODE_MSGSIZMAX).
  { unfold cmdreq_msg. rewrite wire_msg_length. vm_compute. discriminate. }
  assert (Hid : 0 <= id < 2147483648).
  { subst id. unfold fresh_cmdid, int32_range in *.
    destruct (Z.ltb_spec (next_cmdid (st_client s)) 0); lia. }
  split_and!; [|lia|reflexivity| |reflexivity].
  - apply (vnode_client_cmdreq_sends e s cb data 0 (None :: argv) [] fresh
             cmdin cmdout cmderr); try assumption; try reflexivity.
  - assert (Hn : Z.of_nat (length (@nil cstring)) <= VNODE_ARGMAX)
      by (vm_compute; discriminate).
    rewrite (SpawnFacts.vnode_recv_cmdreq_accepts se server client mb id []
               junk Hm); [|unfold int32_range; lia|done|done].
    apply (SpawnFacts.vnode_process_cmdreq_records se sfresh server client
             (cmdreq_of mb id (cmdarg_filled (map cmdarg_val []))));
      assumption.
Qed.

(** The child forked for a request without arguments has no file to give
    to [execvp]. *)
Lemma forkexec_child_no_file mb id :
  Server.forkexec_child (cmdreq_of mb id (cmdarg_filled [])) = Server.ChildUndef.
Proof. reflexivity. Qed.

Lemma empty_argv_is_sent_and_spawned_witness :
  let dg := cmdreq_dgram 0 [] (-1, -1, -1) in
  let req := cmdreq_of (received (cmdreq_msg 0 [])) 0 (cmdarg_filled []) in
  let ack := {| dg_bytes := cmdreqack_msg 0 4242; dg_rights := None |} in
  vnode_client_cmdreq fair_client_env quiet_state None 0 0 [None]
  = Done (0,
          {| st_client := queued new_client None 0;
             st_cmdio := VCMD_IO_NONE;
             st_open := {[0; 1; 2; 3]} |},
          [(3, dg)])
  /\ 0 <= 0
  /\ dg_bytes dg = wire_msg VNODE_MSG_CMDREQ [tlv_of_int32 VNODE_TLV_CMDID 0]
  /\ Server.vnode_recv_cmdreq fair_env no_commands client_one
       (received (cmdreq_msg 0 []))
     = Done ({| Server.cmdlisthead :=
                  [] ++ [ {| cmdid := 0; pid := 4242; status := -1;
                             data := 1 |} ] |},
             Server.SysFork req 4242
             :: Server.CLOSE (-1) ++ Server.CLOSE (-1) ++ Server.CLOSE (-1)
                ++ [Server.SysSend 5 ack])
  /\ Server.forkexec_child req = Server.ChildUndef.
Proof.
  apply (empty_argv_is_sent_and_spawned fair_client_env quiet_state None 0 []
           (fun _ => x00) (-1) (-1) (-1) fair_env (fun _ => x00) no_commands
           client_one (received (cmdreq_msg 0 [])) []).
  - unfold int32_range. simpl. lia.
  - reflexivity.
  - reflexivity.
  - reflexivity.
  - reflexivity.
  - by left.
  - reflexivity.
  - cbn [received msg]. by rewrite app_nil_r.
  - reflexivity.
  - reflexivity.
  - vm_compute. discriminate.
  - reflexivity.
Defined.

(** C3, counterexample: [vcmd] sends its standard streams for the command
    and, after the request succeeded, still holds all three. *)
Lemma fd_variant_keeps_sent_fds :
  exists s' dg,
    vnode_client_cmdreq fair_client_env vcmd_state None 0 1 argv_a
    = Done (0, s', [(3, dg)])
    /\ dg_rights dg = Some (0, 1, 2)
    /\ 0 ∈ st_open s' /\ 1 ∈ st_open s' /\ 2 ∈ st_open s'.
Proof.
  eexists _, _. split_and!.
  - apply (vnode_client_cmdreq_sends fair_client_env vcmd_state None 0 1
             argv_a [[x61]] (fun _ => x00) 0 1 2);
      first [reflexivity | right; lia | vm_compute; discriminate].
  - reflexivity.
  - cbn [st_open vcmd_state vnode_cleanupcmdio st_cmdio snd]. set_solver.
  - cbn [st_open vcmd_state vnode_cleanupcmdio st_cmdio snd]. set_solver.
  - cbn [st_open vcmd_state vnode_cleanupcmdio st_cmdio snd]. set_solver.
Qed.

Lemma vnode_client_cmdreq_child_fds_witness :
  exists dg cmdin cmdout cmderr,
    [(3, cmdreq_dgram 0 [[x61]] (10, 13, 15))] = [(3, dg)]
    /\ vnode_setcmdio (VCMD_IO_PIPE 10 11 12 13 14 15)
       = Some (cmdin, cmdout, cmderr)
    /\ (cmdin < 0 /\ dg_rights dg = None
        \/ 0 <= cmdin /\ 0 <= cmdout /\ 0 <= cmderr
           /\ dg_rights dg = Some (cmdin, cmdout, cmderr))
    /\ forall fd, fd ∈ [cmdin; cmdout; cmderr] -> 0 <= fd ->
         fd ∉ (vnode_cleanupcmdio (VCMD_IO_PIPE 10 11 12 13 14 15)
                 {[0; 1; 2; 3; 10; 11; 12; 13; 14; 15]}).2.
Proof.
  apply (vnode_client_cmdreq_child_fds fair_client_env pipe_state None 0 1
           argv_a 0
           {| st_client := queued new_client None 0;
              st_cmdio := (vnode_cleanupcmdio (st_cmdio pipe_state)
                             (st_open pipe_state)).1;
              st_open := (vnode_cleanupcmdio (st_cmdio pipe_state)
                            (st_open pipe_state)).2 |}
           [(3, cmdreq_dgram 0 [[x61]] (10, 13, 15))]).
  - apply (vnode_client_cmdreq_sends fair_client_env pipe_state None 0 1
             argv_a [[x61]] (fun _ => x00) 10 13 15);
      first [reflexivity | right; lia | vm_compute; discriminate].
  - lia.
Defined.

End SubmitFacts.

(** ** Replies of the server *)

Module ClientFacts.
Import Client.

Lemma tlv_cmdreqack_cmdid_int32 x a :
  int32_range x ->
  tlv_cmdreqack_cmdid (tlv_of_int32 VNODE_TLV_CMDID x) a
  = Done (0, {| ack_cmdid := x; ack_pid := ack_pid a |}).
Proof.
  intros Hx. unfold tlv_cmdreqack_cmdid.
  rewrite tlv_int32_of_int32 by done. reflexivity.
Qed.

Lemma tlv_cmdreqack_cmdpid_int32 x a :
  int32_range x ->
  tlv_cmdreqack_cmdpid (tlv_of_int32 VNODE_TLV_CMDPID x) a
  = Done (0, {| ack_cmdid := ack_cmdid a; ack_pid := x |}).
Proof.
  intros Hx. unfold tlv_cmdreqack_cmdpid.
  rewrite tlv_int32_of_int32 by done. reflexivity.
Qed.

Lemma tlv_cmdstatus_cmdid_int32 x a :
  int32_range x ->
  tlv_cmdstatus_cmdid (tlv_of_int32 VNODE_TLV_CMDID x) a
  = Done (0, {| st_cmdid := x; st_status := st_status a |}).
Proof.
  intros Hx. unfold tlv_cmdstatus_cmdid.
  rewrite tlv_int32_of_int32 by done. reflexivity.
Qed.

Lemma tlv_cmdstatus_status_int32 x a :
  int32_range x ->
  tlv_cmdstatus_status (tlv_of_int32 VNODE_TLV_CMDSTATUS x) a
  = Done (0, {| st_cmdid := st_cmdid a; st_status := x |}).
Proof.
  intros Hx. unfold tlv_cmdstatus_status.
  rewrite tlv_int32_of_int32 by done. reflexivity.
Qed.

Lemma two_int32_wf t1 x1 t2 x2 :
  0 <= t1 < VNODE_TLV_MAX -> 0 <= t2 < VNODE_TLV_MAX ->
  Forall tlv_wf [tlv_of_int32 t1 x1; tlv_of_int32 t2 x2].
Proof. intros. repeat constructor; by apply tlv_of_int32_wf. Qed.

Lemma parse_cmdreqack id p junk :
  int32_range id -> int32_range p ->
  vnode_parsemsg (cmdreqack_msg id p ++ junk) CMDREQACK_INIT
    cmdreqack_tlvhandler
  = Done (0, {| ack_cmdid := id; ack_pid := p |}).
Proof.
  intros Hid Hp. unfold cmdreqack_msg. rewrite parsemsg_wire.
  - cbn [dispatch].
    change (cmdreqack_tlvhandler (tlv_type (tlv_of_int32 VNODE_TLV_CMDID id)))
      with (Some tlv_cmdreqack_cmdid).
    change (cmdreqack_tlvhandler (tlv_type (tlv_of_int32 VNODE_TLV_CMDPID p)))
      with (Some tlv_cmdreqack_cmdpid).
    cbv iota. rewrite tlv_cmdreqack_cmdid_int32 by done.
    cbn [mbind outcome_bind Z.eqb negb].
    rewrite tlv_cmdreqack_cmdpid_int32 by done. reflexivity.
  - apply two_int32_wf;
      unfold VNODE_TLV_CMDID, VNODE_TLV_CMDPID, VNODE_TLV_MAX; lia.
  - vm_compute. done.
Qed.

Lemma parse_cmdstatus id st junk :
  int32_range id -> int32_range st ->
  vnode_parsemsg (cmdstatus_msg id st ++ junk) CMDSTATUS_INIT
    cmdstatus_tlvhandler
  = Done (0, {| st_cmdid := id; st_status := st |}).
Proof.
  intros Hid Hst. unfold cmdstatus_msg. rewrite parsemsg_wire.
  - cbn [dispatch].
    change (cmdstatus_tlvhandler (tlv_type (tlv_of_int32 VNODE_TLV_CMDID id)))
      with (Some tlv_cmdstatus_cmdid).
    change (cmdstatus_tlvhandler
              (tlv_type (tlv_of_int32 VNODE_TLV_CMDSTATUS st)))
      with (Some tlv_cmdstatus_status).
    cbv iota. rewrite tlv_cmdstatus_cmdid_int32 by done.
    cbn [mbind outcome_bind Z.eqb negb].
    rewrite tlv_cmdstatus_status_int32 by done. reflexivity.
  - apply two_int32_wf;
      unfold VNODE_TLV_CMDID, VNODE_TLV_CMDSTATUS, VNODE_TLV_MAX; lia.
  - vm_compute. done.
Qed.

(** What the client does on a [CMDREQACK{id, p}]. *)
Lemma vnode_clientrecv_cmdreqack_wire client id p junk :
  msg (msgbuf client) = cmdreqack_msg id p ++ junk ->
  int32_range id -> int32_range p ->
  vnode_clientrecv_cmdreqack client
  = match tailq_find (fun cmd => cmdid cmd =? id) (cmdlisthead client) with
    | None => Done (client, [])
    | Some (i, cmd) =>
      if p =? -1 then
        Done (set_cmdlist client (delete i (cmdlisthead client)),
              vnode_client_cmddone (set_status (set_pid cmd p) (-1)))
      else
        Done (set_cmdlist client (<[i := set_pid cmd p]> (cmdlisthead client)),
              [])
    end.
Proof.
  intros Hm Hid Hp. unfold vnode_clientrecv_cmdreqack. rewrite Hm.
  assert (Hty : hdr_type (cmdreqack_msg id p ++ junk)
                = Some VNODE_MSG_CMDREQACK)
    by (unfold cmdreqack_msg; by rewrite hdr_type_wire).
  rewrite Hty. cbn [of_option mbind outcome_bind].
  change (negb (_ =? VNODE_MSG_CMDREQACK)) with false. cbv iota.
  rewrite parse_cmdreqack by done. reflexivity.
Qed.

(** What the client does on a [CMDSTATUS{id, st}]. *)
Lemma vnode_clientrecv_cmdstatus_wire client id st junk :
  msg (msgbuf client) = cmdstatus_msg id st ++ junk ->
  int32_range id -> int32_range st ->
  vnode_clientrecv_cmdstatus client
  = match tailq_find (fun cmd => cmdid cmd =? id) (cmdlisthead client) with
    | None => Done (client, [])
    | Some (i, cmd) =>
      Done (set_cmdlist client (delete i (cmdlisthead client)),
            vnode_client_cmddone (set_status cmd st))
    end.
Proof.
  intros Hm Hid Hst. unfold vnode_clientrecv_cmdstatus. rewrite Hm.
  assert (Hty : hdr_type (cmdstatus_msg id st ++ junk)
                = Some VNODE_MSG_CMDSTATUS)
    by (unfold cmdstatus_msg; by rewrite hdr_type_wire).
  rewrite Hty. cbn [of_option mbind outcome_bind].
  change (negb (_ =? VNODE_MSG_CMDSTATUS)) with false. cbv iota.
  rewrite parse_cmdstatus by done. reflexivity.
Qed.

Lemma tailq_find_cmdid_None {D} (l : list (vnode_cmdentry_t D)) id :
  (forall cmd, cmd ∈ l -> cmdid cmd <> id) ->
  tailq_find (fun cmd => cmdid cmd =? id) l = None.
Proof.
  intros H. apply tailq_find_None. intros cmd Hin.
  apply Z.eqb_neq. by apply H.
Qed.

(** C10. For every client state, a well-formed [CMDREQACK{cmdid, pid}] or
    [CMDSTATUS{cmdid, status}] whose [cmdid] is that of no in-flight entry
    changes nothing: the handler returns the handle as it was, in-flight
    table included, and makes no completion callback. *)
Theorem unknown_cmdid_is_ignored client mb id p st junk :
  int32_range id -> int32_range p -> int32_range st ->
  (forall cmd, cmd ∈ cmdlisthead client -> cmdid cmd <> id) ->
  let acked := with_msg client mb (cmdreqack_msg id p ++ junk) in
  let ended := with_msg client mb (cmdstatus_msg id st ++ junk) in
  vnode_clientrecv_cmdreqack acked = Done (acked, [])
  /\ vnode_clientrecv_cmdstatus ended = Done (ended, []).
Proof.
  intros Hid Hp Hst Hno acked ended. split.
  - rewrite (vnode_clientrecv_cmdreqack_wire acked id p junk) by done.
    by rewrite tailq_find_cmdid_None.
  - rewrite (vnode_clientrecv_cmdstatus_wire ended id st junk) by done.
    by rewrite tailq_find_cmdid_None.
Qed.

Lemma unknown_cmdid_is_ignored_witness :
  let acked := with_msg one_inflight INIT_MSGBUF (cmdreqack_msg 9 100 ++ []) in
  let ended := with_msg one_inflight INIT_MSGBUF (cmdstatus_msg 9 0 ++ []) in
  vnode_clientrecv_cmdreqack acked = Done (acked, [])
  /\ vnode_clientrecv_cmdstatus ended = Done (ended, []).
Proof.
  apply (unknown_cmdid_is_ignored one_inflight INIT_MSGBUF 9 100 0 []).
  - unfold int32_range. lia.
  - unfold int32_range. lia.
  - unfold int32_range. lia.
  - intros cmd Hin. cbn in Hin.
    apply list_elem_of_singleton in Hin as ->. simpl. lia.
Defined.

End ClientFacts.

(** ** Every accepted request is completed once *)

Module LifeFacts.
Import Client.

Lemma delclient_loop_spec l : delclient_loop l = ([], flat_map closing_call l).
Proof.
  induction l as [|cmd l IH]; [done|]. cbn [delclient_loop flat_map].
  rewrite IH. reflexivity.
Qed.

Lemma call_key_cmddone cmd :
  map call_key (vnode_client_cmddone cmd) = omap entry_key [cmd].
Proof.
  unfold vnode_client_cmddone, entry_key. cbn.
  destruct (cmddonecb (data cmd)); reflexivity.
Qed.

Lemma call_key_closing l :
  map call_key (flat_map closing_call l) = omap entry_key l.
Proof.
  induction l as [|cmd l IH]; [done|]. cbn [flat_map]. rewrite map_app, IH.
  change (cmd :: l) with ([cmd] ++ l). rewrite omap_app. f_equal.
  unfold closing_call, entry_key. cbn.
  destruct (cmddonecb (data cmd)); reflexivity.
Qed.

Lemma omap_insert_same_key {A B} (f : A -> option B) (l : list A) (i : nat)
    x x' :
  l !! i = Some x -> f x' = f x -> omap f (<[i := x']> l) = omap f l.
Proof.
  revert i. induction l as [|y l IH]; intros [|i] Hi Hf; try done.
  - injection Hi as ->. cbn. by rewrite Hf.
  - cbn. destruct (f y); [f_equal|]; by apply (IH i).
Qed.

Lemma omap_delete_Permutation {A B} (f : A -> option B) (l : list A)
    (i : nat) x :
  l !! i = Some x -> omap f l ≡ₚ omap f [x] ++ omap f (delete i l).
Proof.
  intros Hi. rewrite <- omap_app. apply omap_Permutation.
  by apply delete_Permutation.
Qed.

(** The in-flight entries before a handler ran are those it completed and
    those it left. *)
Lemma vnode_clientrecv_cmdreqack_keys client client' calls :
  vnode_clientrecv_cmdreqack client = Done (client', calls) ->
  omap entry_key (cmdlisthead client)
  ≡ₚ map call_key calls ++ omap entry_key (cmdlisthead client').
Proof.
  unfold vnode_clientrecv_cmdreqack.
  destruct (hdr_type _) as [ty|]; [|done]. cbn [of_option mbind outcome_bind].
  destruct (negb (ty =? VNODE_MSG_CMDREQACK)); [done|].
  destruct (vnode_parsemsg _ _ _) as [[tmp ack]| |]; try done.
  cbn [mbind outcome_bind].
  destruct (negb (tmp =? 0)); [by intros [= <- <-]|].
  destruct (tailq_find _ _) as [[i cmd]|] eqn:E; [|by intros [= <- <-]].
  apply tailq_find_Some in E as [Hi _].
  destruct (ack_pid ack =? -1); intros [= <- <-]; cbn [cmdlisthead set_cmdlist].
  - rewrite call_key_cmddone.
    change (omap entry_key [set_status (set_pid cmd (ack_pid ack)) (-1)])
      with (omap entry_key [cmd]).
    by apply omap_delete_Permutation.
  - by rewrite (omap_insert_same_key entry_key _ i cmd).
Qed.

Lemma vnode_clientrecv_cmdstatus_keys client client' calls :
  vnode_clientrecv_cmdstatus client = Done (client', calls) ->
  omap entry_key (cmdlisthead client)
  ≡ₚ map call_key calls ++ omap entry_key (cmdlisthead client').
Proof.
  unfold vnode_clientrecv_cmdstatus.
  destruct (hdr_type _) as [ty|]; [|done]. cbn [of_option mbind outcome_bind].
  destruct (negb (ty =? VNODE_MSG_CMDSTATUS)); [done|].
  destruct (vnode_parsemsg _ _ _) as [[tmp st]| |]; try done.
  cbn [mbind outcome_bind].
  destruct (negb (tmp =? 0)); [by intros [= <- <-]|].
  destruct (tailq_find _ _) as [[i cmd]|] eqn:E; [|by intros [= <- <-]].
  apply tailq_find_Some in E as [Hi _].
  intros [= <- <-]. cbn [cmdlisthead set_cmdlist].
  rewrite call_key_cmddone.
  change (omap entry_key [set_status cmd (st_status st)])
    with (omap entry_key [cmd]).
  by apply omap_delete_Permutation.
Qed.

Lemma vnode_msg_cb_keys heap recvmsg client client' calls :
  vnode_msg_cb heap recvmsg client = Done (client', calls) ->
  omap entry_key (cmdlisthead client)
  ≡ₚ map call_key calls ++ omap entry_key (cmdlisthead client').
Proof.
  unfold vnode_msg_cb.
  destruct (vnode_recvmsg heap recvmsg (msgbuf client)) as [[tmp mb]| |];
    try done.
  cbn [mbind outcome_bind].
  destruct (tmp =? 0); [by intros [= <- <-]|].
  destruct (tmp <? 0); [by intros [= <- <-]|].
  destruct (hdr_type (msg mb)) as [ty|]; [|done].
  cbn [of_option mbind outcome_bind].
  destruct (ty =? VNODE_MSG_CMDREQACK).
  { intros H. by apply vnode_clientrecv_cmdreqack_keys in H. }
  destruct (ty =? VNODE_MSG_CMDSTATUS).
  { intros H. by apply vnode_clientrecv_cmdstatus_keys in H. }
  by intros [= <- <-].
Qed.

(** [vnode_client_cmdreq] either fails and leaves the table as it was, or
    returns the [cmdid] of the one entry it added. *)
Lemma vnode_client_cmdreq_table e s cb data argc argv ret s' sent :
  vnode_client_cmdreq e s cb data argc argv = Done (ret, s', sent) ->
  ret < 0 /\ cmdlisthead (st_client s') = cmdlisthead (st_client s)
  \/ 0 <= ret
     /\ cmdlisthead (st_client s')
        = cmdlisthead (st_client s)
          ++ [ {| cmdid := ret; pid := -1; status := -1;
                  data := {| cmddonecb := cb; cb_data := data |} |} ].
Proof.
  unfold vnode_client_cmdreq. intros H.
  destruct (argc >=? VNODE_ARGMAX); [injection H as <- <- _; left; done|].
  destruct (zlookup argv argc) as [last|]; [|done].
  cbn [of_option mbind outcome_bind] in H.
  destruct last; [injection H as <- <- _; left; done|].
  destruct (vnode_setcmdio (st_cmdio s)) as [[[cmdin cmdout] cmderr]|];
    [|injection H as <- <- _; left; done].
  destruct (negb (malloc_clientcmd e)); [injection H as <- <- _; left; done|].
  destruct (negb (malloc_cmd e)); [injection H as <- <- _; left; done|].
  destruct (vnode_send_cmdreq _ _ _ _ _ _ _ _) as [[failed sent0]| |];
    try done.
  cbn [mbind outcome_bind] in H.
  destruct (negb (failed =? 0)).
  - injection H as <- <- _. left. split; [done|].
    cbn [st_client cmdlisthead set_cmdlist].
    rewrite delete_take_drop, take_app_length.
    rewrite drop_ge by (rewrite length_app; simpl; lia).
    by rewrite app_nil_r.
  - destruct (vnode_cleanupcmdio _ _) as [io' open'].
    injection H as <- <- _. right. split; [|done].
    destruct (next_cmdid (st_client s) <? 0) eqn:E; [lia|].
    apply Z.ltb_ge in E. lia.
Qed.

Lemma do_step_balanced h st h' :
  do_step h st = Done h' -> balanced h -> balanced h'.
Proof.
  unfold balanced. destruct st as [e io cb d argc argv|heap recvmsg];
    cbn [do_step].
  - destruct (vnode_client_cmdreq _ _ _ _ _ _) as [[[ret s] sent]| |] eqn:E;
      try done.
    cbn [mbind outcome_bind]. intros [= <-] Hb.
    cbn [h_accepted h_calls h_client].
    apply vnode_client_cmdreq_table in E as [[Hret Hl]|[Hret Hl]];
      cbn [st_client] in Hl; rewrite Hl.
    + replace (ret <? 0) with true by (symmetry; apply Z.ltb_lt; lia). done.
    + replace (ret <? 0) with false by (symmetry; apply Z.ltb_ge; lia).
      rewrite !omap_app, Hb, <- app_assoc. done.
  - destruct (vnode_msg_cb _ _ _) as [[client calls]| |] eqn:E; try done.
    cbn [mbind outcome_bind]. intros [= <-] Hb.
    cbn [h_accepted h_calls h_client].
    apply vnode_msg_cb_keys in E. rewrite Hb, E, map_app, <- app_assoc. done.
Qed.

Lemma run_balanced steps :
  forall h h', run h steps = Done h' -> balanced h -> balanced h'.
Proof.
  induction steps as [|st steps IH]; intros h h'; cbn [run].
  - by intros [= <-].
  - destruct (do_step h st) as [h1| |] eqn:E; try done.
    cbn [mbind outcome_bind]. intros Hrun Hb.
    apply (IH h1 h' Hrun). by apply (do_step_balanced h st).
Qed.

(** C7. However a handle was used between [vnode_client] and
    [vnode_delclient] (commands submitted, messages received), the
    completions made up to then, in reply to a CMDSTATUS or to a CMDREQACK
    with pid -1, together with those [vnode_delclient] makes, are, up to
    order, exactly the requests [vnode_client_cmdreq] accepted with a
    callback: one [on_done] each. And on every handle, whatever its table
    holds, [vnode_delclient] calls the completion callback once for each
    entry that has one, in order, with the entry's [cmdid] and [pid] and
    with status -1, and leaves the table empty. *)
Theorem every_accepted_request_completes_once h0 steps h client open :
  cmdlisthead (h_client h0) = [] -> h_calls h0 = [] -> h_accepted h0 = [] ->
  run h0 steps = Done h ->
  (let '(client', _, calls) := vnode_delclient client open in
   cmdlisthead client' = []
   /\ calls = flat_map closing_call (cmdlisthead client))
  /\ omap accepted_key (h_accepted h)
     ≡ₚ map call_key (h_calls (finish h)).
Proof.
  intros Hl Hc Ha Hrun. split.
  - unfold vnode_delclient.
    destruct (0 <=? serverfd client); rewrite delclient_loop_spec; done.
  - assert (Hb : balanced h).
    { apply (run_balanced steps h0 h Hrun). unfold balanced.
      by rewrite Hl, Hc, Ha. }
    unfold finish, vnode_delclient.
    destruct (0 <=? serverfd (h_client h)); rewrite delclient_loop_spec;
      cbn [h_calls]; rewrite map_app, call_key_closing; exact Hb.
Qed.

End LifeFacts.

(** ** Instances *)

Module Witnesses.
Import Client LifeFacts.

Lemma run_two_commands : run new_history two_commands = Done two_commands_end.
Proof.
  assert (Hd : match run new_history two_commands with
               | Done _ => true
               | _ => false
               end = true) by (vm_compute; reflexivity).
  unfold two_commands_end.
  destruct (run new_history two_commands); [reflexivity|discriminate..].
Qed.

Lemma every_accepted_request_completes_once_witness :
  (let '(client', _, calls) := vnode_delclient one_inflight {[0; 1; 2; 3]} in
   cmdlisthead client' = []
   /\ calls = flat_map closing_call (cmdlisthead one_inflight))
  /\ omap accepted_key (h_accepted two_commands_end)
     ≡ₚ map call_key (h_calls (finish two_commands_end)).
Proof.
  apply (every_accepted_request_completes_once new_history two_commands
           two_commands_end one_inflight {[0; 1; 2; 3]}).
  - reflexivity.
  - reflexivity.
  - reflexivity.
  - exact run_two_commands.
Defined.

Example two_commands_calls :
  h_accepted two_commands_end
  = [mk_accepted 0 (Some 77) 5; mk_accepted 1 (Some 78) 6]
  /\ h_calls (finish two_commands_end)
     = [mk_call 77 0 100 0 5; mk_call 78 1 (-1) (-1) 6].
Proof. vm_compute. done. Qed.

Lemma vnode_recvmsg_result_witness :
  exists r mb',
    vnode_recvmsg zero_heap (RecvData (cmdsignal_msg 0 15) None) INIT_MSGBUF
    = Done (r, mb')
    /\ msgbufsize mb' = Z.max (msgbufsize INIT_MSGBUF) VNODE_MSGSIZMAX
    /\ let iov_len := Z.max (msgbufsize INIT_MSGBUF) VNODE_MSGSIZMAX in
       let got := take (Z.to_nat iov_len) (cmdsignal_msg 0 15) in
       (r = 0 <-> short_datagram got \/ bad_type got \/ bad_length got)
       /\ (r < 0 <-> got = [])
       /\ (0 < r -> r = Z.of_nat (length got) /\ well_formed got
                    /\ take (length got) (msg mb') = got).
Proof.
  apply (vnode_recvmsg_result zero_heap (RecvData (cmdsignal_msg 0 15) None)
           INIT_MSGBUF).
  right. by eexists.
Defined.

Lemma vnode_recv_cmdsignal_owner_witness :
  exists evs,
    Server.vnode_recv_cmdsignal two_owners client_one
      (received (cmdsignal_msg 0 15 ++ []))
    = Done (two_owners, evs)
    /\ (forall ev, ev ∈ evs ->
          exists cmd, cmd ∈ Server.cmdlisthead two_owners
                      /\ cmdid cmd = 0
                      /\ data cmd = Server.client_ref client_one
                      /\ ev = Server.SysKill (pid cmd) 15)
    /\ ((forall cmd, cmd ∈ Server.cmdlisthead two_owners -> cmdid cmd = 0 ->
           data cmd <> Server.client_ref client_one) -> evs = [])
    /\ ((exists cmd, cmd ∈ Server.cmdlisthead two_owners /\ cmdid cmd = 0
                     /\ data cmd = Server.client_ref client_one) ->
        length evs = 1%nat).
Proof.
  apply (ServerFacts.vnode_recv_cmdsignal_owner two_owners client_one
           (received (cmdsignal_msg 0 15 ++ [])) 0 15 []).
  - reflexivity.
  - unfold int32_range. lia.
  - unfold int32_range. lia.
Defined.

End Witnesses.
